(** * PET-CBM-OPTIMIZER: the physics model and the k-factor store

    A shallow embedding of [physics_module.py] (class [PETPhysicsModel]) and
    [data_persistence.py] (class [KFactorStore]), and the properties of
    them that the specification states.

    Numbers.  The Python code computes on binary64 floats.  The physics
    model is embedded over the real numbers [R]: every float operation is
    read as the exact operation ([np.sqrt] as [sqrt], [np.exp] as [exp],
    [np.log] as [ln], [**] as [Rpower] on a positive base), so overflow,
    NaN inputs and rounding error of the arithmetic are outside the model.
    [round(v, 1)] is kept: it is the decimal rounding the solvers rely on.
    The store only adds, subtracts, multiplies, divides and compares, so
    its values are rationals [Q] and its functions compute. *)

From stdpp Require Import gmap strings list.
From Stdlib Require Import Ascii String Reals Lra Lia ZArith QArith Qround Sorted.
From Stdlib Require Lqa.

(** ** The Python runtime the two classes use *)

Module Py.

(** Exceptions that the modelled code can meet.  [ComplexResult] is not
    an exception of Python: it marks [x ** y] on a negative base with a
    fractional exponent, whose value is a complex number. *)
Inductive exn : Type :=
  | ZeroDivisionError
  | KeyError
  | ComplexResult
  | OSError
  | ValueError
  | TypeError.

Inductive outcome (A : Type) : Type :=
  | Return (a : A)
  | Raise (e : exn).
Arguments Return {A} a.
Arguments Raise {A} e.

Definition bind {A B : Type} (m : outcome A) (f : A -> outcome B) : outcome B :=
  match m with
  | Return a => f a
  | Raise e => Raise e
  end.

(** [try: m  except Exception: h] *)
Definition try_except {A : Type} (m : outcome A) (h : outcome A) : outcome A :=
  match m with
  | Return a => Return a
  | Raise _ => h
  end.


(** Comparisons of floats, as booleans. *)
Definition ltb (x y : R) : bool := if Rlt_dec x y then true else false.
Definition leb (x y : R) : bool := if Rle_dec x y then true else false.

(** [a / b] on floats raises on a zero divisor. *)
Definition div (a b : R) : outcome R :=
  if Req_dec_T b 0 then Raise ZeroDivisionError else Return (a / b)%R.

(** [x ** y] on floats, for the exponents the model uses (0 < y < 1). *)
Definition pow (x y : R) : outcome R :=
  if Rlt_dec 0 x then Return (Rpower x y)
  else if Req_dec_T x 0 then Return 0%R
  else Raise ComplexResult.

(** [round(x, 1)]: the nearest multiple of 0.1, a tie going to the even
    tenth (the exact value of [x] decides, as CPython does). *)
Definition round1 (x : R) : R :=
  let y := (x * 10)%R in
  let n := Int_part y in
  let f := (y - IZR n)%R in
  if Rlt_dec f (1 / 2) then (IZR n / 10)%R
  else if Rlt_dec (1 / 2) f then (IZR (n + 1) / 10)%R
  else if Z.even n then (IZR n / 10)%R
  else (IZR (n + 1) / 10)%R.

(** [str.upper()] and [str.lower()] on ASCII text. *)
Definition upper_ascii (c : ascii) : ascii :=
  let n := nat_of_ascii c in
  if (Nat.leb 97 n && Nat.leb n 122)%bool then ascii_of_nat (n - 32) else c.

Definition lower_ascii (c : ascii) : ascii :=
  let n := nat_of_ascii c in
  if (Nat.leb 65 n && Nat.leb n 90)%bool then ascii_of_nat (n + 32) else c.

Fixpoint upper (s : string) : string :=
  match s with
  | EmptyString => EmptyString
  | String c r => String (upper_ascii c) (upper r)
  end.

Fixpoint lower (s : string) : string :=
  match s with
  | EmptyString => EmptyString
  | String c r => String (lower_ascii c) (lower r)
  end.

(** [needle in hay] on strings. *)
Fixpoint contains (needle hay : string) : bool :=
  if String.prefix needle hay then true
  else match hay with
       | EmptyString => false
       | String _ r => contains needle r
       end.

(** A dict literal with string keys, in insertion order. *)
Fixpoint dict_lookup {A : Type} (d : list (string * A)) (k : string) : option A :=
  match d with
  | [] => None
  | (k', a) :: r => if String.eqb k k' then Some a else dict_lookup r k
  end.

(** [d.get(k, default)] *)
Definition dict_get {A : Type} (d : list (string * A)) (k : string) (default : A) : A :=
  match dict_lookup d k with
  | Some a => a
  | None => default
  end.

(** [d[k]] *)
Definition dict_index {A : Type} (d : list (string * A)) (k : string) : outcome A :=
  match dict_lookup d k with
  | Some a => Return a
  | None => Raise KeyError
  end.

(** Truth value of [None] or a string. *)
Definition truthy (o : option string) : bool :=
  match o with
  | Some s => negb (String.eqb s "")
  | None => false
  end.

End Py.

Notation "'let*' x ':=' m 'in' f" := (Py.bind m (fun x => f))
  (at level 10, x name, m at level 100, f at level 200).

(** ** physics_module.py: class PETPhysicsModel *)

Module PETPhysicsModel.
Import Py.
Local Open Scope R_scope.

(** *** The constants of [__init__] *)

Definition AXFOV_MM : R := 263.0.

Definition HALF_LIFE_MIN : list (string * R) :=
  [("FDG"%string, 109.77); ("PSMA"%string, 109.77)].

Definition SYSTEM_SENSITIVITY : list (string * R) :=
  [("FDG"%string, 9.1); ("PSMA"%string, 9.1)].

Definition PEDIATRIC_WEIGHT_RANGES : list (string * (R * R)) :=
  [("neonate"%string, (0.5, 5.0));
   ("infant"%string, (5.0, 15.0));
   ("toddler"%string, (15.0, 25.0));
   ("child"%string, (25.0, 50.0));
   ("adolescent"%string, (50.0, 100.0))].

Definition PEDIATRIC_DOSE_FACTORS : list (string * R) :=
  [("neonate"%string, 0.02);
   ("infant"%string, 0.05);
   ("toddler"%string, 0.10);
   ("child"%string, 0.15);
   ("adolescent"%string, 0.75)].

Definition PEDIATRIC_SCAN_TIME_LIMITS : list (string * R) :=
  [("neonate"%string, 30.0);
   ("infant"%string, 60.0);
   ("toddler"%string, 120.0);
   ("child"%string, 180.0);
   ("adolescent"%string, 240.0)].

Definition PEDIATRIC_LBM_FACTORS : list (string * R) :=
  [("neonate"%string, 0.85);
   ("infant"%string, 0.80);
   ("toddler"%string, 0.75);
   ("child"%string, 0.70);
   ("adolescent"%string, 0.65)].

(** *** Tracer, sensitivity, decay *)

Definition tracer_key (name : string) : string :=
  if contains "PSMA" (upper name) then "PSMA"%string else "FDG"%string.

Definition get_system_sensitivity (tracer : string) : R :=
  let base := dict_get SYSTEM_SENSITIVITY (tracer_key tracer) 9.1 in
  base * 1000.

(** [inj_time] and [scan_start] are datetimes, given here as seconds on
    a common clock: [(scan_start - inj_time).total_seconds()] is their
    difference. *)
Definition effective_activity_mbq
    (injected_mbq inj_time scan_start : R) (tracer : string) (residual_mbq : R)
    : outcome R :=
  let* half_life := dict_index HALF_LIFE_MIN (tracer_key tracer) in
  let lam := ln 2 / half_life in
  let dt_min := Rmax ((scan_start - inj_time) / 60.0) 0.0 in
  let A0 := Rmax (injected_mbq - residual_mbq) 0.0 in
  Return (A0 * exp (- lam * dt_min)).

(** *** The pediatric tables *)

(** The loop of [get_pediatric_age_group] over the items of the table. *)
Fixpoint first_group (ranges : list (string * (R * R))) (weight_kg : R) : option string :=
  match ranges with
  | [] => None
  | (group, (min_w, max_w)) :: rest =>
      if (leb min_w weight_kg && leb weight_kg max_w)%bool then Some group
      else first_group rest weight_kg
  end.

Definition get_pediatric_age_group (weight_kg : R) : option string :=
  first_group PEDIATRIC_WEIGHT_RANGES weight_kg.

Definition is_pediatric_patient (weight_kg : R) : bool :=
  ltb weight_kg 35.0.

Definition get_pediatric_dose_factor (weight_kg : R) : R :=
  let age_group := get_pediatric_age_group weight_kg in
  if truthy age_group then
    match age_group with
    | Some g => dict_get PEDIATRIC_DOSE_FACTORS g 0.15
    | None => 1.0
    end
  else 1.0.

Definition get_pediatric_scan_time_limit (weight_kg : R) : R :=
  let age_group := get_pediatric_age_group weight_kg in
  if truthy age_group then
    match age_group with
    | Some g => dict_get PEDIATRIC_SCAN_TIME_LIMITS g 180.0
    | None => 180.0
    end
  else 180.0.

(** [gender or "male"], lowered, and the test [gender in [...]]. *)
Definition is_male (gender : option string) : bool :=
  let g := lower (if truthy gender then default "male"%string gender else "male"%string) in
  (String.eqb g "male" || String.eqb g "masculino" || String.eqb g "hombre")%bool.

Definition calculate_lbm (weight_kg height_cm : R) (gender : option string) : outcome R :=
  if is_pediatric_patient weight_kg then
    let age_group := get_pediatric_age_group weight_kg in
    if truthy age_group then
      let lbm_factor :=
        match age_group with
        | Some g => dict_get PEDIATRIC_LBM_FACTORS g 0.70
        | None => 0.70
        end in
      Return (weight_kg * lbm_factor)
    else if ltb weight_kg 10 then Return (weight_kg * 0.85)
    else if ltb weight_kg 30 then Return (weight_kg * 0.80)
    else Return (weight_kg * 0.75)
  else
    let* ratio := div weight_kg height_cm in
    let lbm :=
      if is_male gender then 1.10 * weight_kg - 128 * ratio ^ 2
      else 1.07 * weight_kg - 148 * ratio ^ 2 in
    Return (Rmax lbm 30.0).

Definition bmi_multiplier (bmi : R) (tracer : string) (bmi_ref bmi_cap : R) : outcome R :=
  let tkey := tracer_key tracer in
  let exp := if String.eqb tkey "FDG" then 0.6 else 0.4 in
  let bmi_eff := Rmin bmi bmi_cap in
  if leb bmi_eff bmi_ref then Return 1.0
  else
    let* ratio := div bmi_eff bmi_ref in
    pow ratio exp.

(** The defaults of the signature: [bmi_ref=22.0, bmi_cap=40.0]. *)
Definition bmi_ref_default : R := 22.0.
Definition bmi_cap_default : R := 40.0.

(** *** NEC and SNR *)

Definition calculate_nec (activity_mbq dwell_time_s : R) (tracer : string) : R :=
  let sens := get_system_sensitivity tracer in
  activity_mbq * dwell_time_s * sens.

Definition calculate_snr_from_nec (nec recon_gain : R) : R :=
  sqrt (Rmax nec 1e-9) * recon_gain.

(** *** The protocol solvers

    The results are the tuples of the source, in its order.  [cov_pred]
    is [None] where the source gives [np.nan].  A division whose divisor
    is floored by [max(_, 1e-6)], or is the rounded velocity (at least
    0.5, lemma [velocity_bounds]), cannot raise and is written [/]. *)

Definition solve_standard
    (A_eff_mbq k recon_gain snr_target_case mult_bmi scan_range_mm : R)
    (tracer : string) (is_pediatric : bool) (weight_kg height_cm : option R)
    : outcome (R * R * R * R * option R * bool) :=
  let* q := div snr_target_case (Rmax k 1e-9 * recon_gain) in
  let nec_req := q ^ 2 in
  let sens := get_system_sensitivity tracer in
  let t_bed := nec_req / Rmax (A_eff_mbq * sens) 1e-6 * mult_bmi in
  let t_bed :=
    if is_pediatric then
      match weight_kg with
      | Some w =>
          let max_scan_time := get_pediatric_scan_time_limit w in
          Rmin t_bed max_scan_time
      | None => t_bed
      end
    else t_bed in
  let v := AXFOV_MM / Rmax t_bed 1e-6 in
  let v := Rmax 0.5 (Rmin v 50.0) in
  let v := round1 v in
  let t_bed_r := AXFOV_MM / v in
  let nec := calculate_nec A_eff_mbq t_bed_r tracer in
  let snr_pred := k * calculate_snr_from_nec nec recon_gain in
  let cov_pred := if ltb 0 snr_pred then Some (1.0 / snr_pred) else None in
  Return (v, t_bed_r, (scan_range_mm / v) / 60.0, snr_pred, cov_pred,
          leb (Rabs (snr_pred - snr_target_case)) 0.3).

Definition solve_lowdose
    (low_dpk weight_kg k recon_gain snr_target_case mult_bmi scan_range_mm : R)
    (tracer : string) (is_pediatric : bool) (height_cm : option R)
    : outcome (R * R * R * R * R * option R * bool) :=
  let A_low :=
    if is_pediatric then
      let dose_factor := get_pediatric_dose_factor weight_kg in
      low_dpk * weight_kg * dose_factor
    else low_dpk * weight_kg in
  let* q := div snr_target_case (Rmax k 1e-9 * recon_gain) in
  let nec_req := q ^ 2 in
  let sens := get_system_sensitivity tracer in
  let t_bed := nec_req / Rmax (A_low * sens) 1e-6 * mult_bmi in
  let t_bed :=
    if is_pediatric then
      let max_scan_time := get_pediatric_scan_time_limit weight_kg in
      Rmin t_bed max_scan_time
    else t_bed in
  let v := AXFOV_MM / Rmax t_bed 1e-6 in
  let v := Rmax 0.5 (Rmin v 50.0) in
  let v := round1 v in
  let t_bed_r := AXFOV_MM / v in
  let nec := calculate_nec A_low t_bed_r tracer in
  let snr_pred := k * calculate_snr_from_nec nec recon_gain in
  let cov_pred := if ltb 0 snr_pred then Some (1.0 / snr_pred) else None in
  Return (A_low, v, t_bed_r, (scan_range_mm / v) / 60.0, snr_pred, cov_pred,
          ltb (0.5 + 1e-6) v).

Definition solve_fast
    (A_eff_mbq k recon_gain mult_bmi fast_t_ref_s scan_range_mm : R)
    (tracer : string) (is_pediatric : bool) (weight_kg height_cm : option R)
    : R * R * R * R * option R :=
  let t_bed_fast := fast_t_ref_s * mult_bmi in
  let t_bed_fast :=
    if is_pediatric then
      match weight_kg with
      | Some w =>
          let reduction_factor := 0.5 + 0.3 * (get_pediatric_dose_factor w / 0.15) in
          let t_bed_fast := t_bed_fast * reduction_factor in
          let max_scan_time := get_pediatric_scan_time_limit w * 0.5 in
          Rmin t_bed_fast max_scan_time
      | None => t_bed_fast
      end
    else t_bed_fast in
  let v := AXFOV_MM / Rmax t_bed_fast 1e-6 in
  let v := Rmax 0.5 (Rmin v 50.0) in
  let v := round1 v in
  let t_bed_r := AXFOV_MM / v in
  let nec := calculate_nec A_eff_mbq t_bed_r tracer in
  let snr_pred := k * calculate_snr_from_nec nec recon_gain in
  let cov_pred := if ltb 0 snr_pred then Some (1.0 / snr_pred) else None in
  (v, t_bed_r, (scan_range_mm / v) / 60.0, snr_pred, cov_pred).

(** *** The remaining functions of the class *)

(** A value of [RECON_PROFILES]: a dict with a gain and, in the table, a
    note; the fallback of [recon_gain_val] has the gain only. *)
Record recon_profile : Type := { gain : R; note : option string }.

Definition RECON_PROFILES : list (string * recon_profile) :=
  [("EARL"%string, {| gain := 1.0; note := Some "EARL armonizado"%string |});
   ("OSEM_TOF"%string, {| gain := 1.25; note := Some "OSEM+TOF sin PSF"%string |});
   ("HD_PET"%string, {| gain := 1.6; note := Some "TOF+PSF+filtro (Vision)"%string |})].

Definition PEDIATRIC_SNR_TARGETS : list (string * R) :=
  [("FDG"%string, 8.0); ("PSMA"%string, 10.0)].

Definition recon_gain_val (profile : string) (custom_gain : option R) : R :=
  let profile_data := dict_get RECON_PROFILES profile {| gain := 1.6; note := None |} in
  match custom_gain with
  | Some g => if ltb 0 g then g else gain profile_data
  | None => gain profile_data
  end.

(** The table is read with the label as it is given, not with its
    [tracer_key]. *)
Definition get_pediatric_snr_target (tracer : string) (weight_kg : R) : R :=
  let base_target := dict_get PEDIATRIC_SNR_TARGETS tracer 8.0 in
  let dose_factor := get_pediatric_dose_factor weight_kg in
  let adjusted_target := base_target * (0.8 + 0.4 * (dose_factor / 0.15)) in
  Rmax 5.0 (Rmin 12.0 adjusted_target).

(** The divisor is a numpy float: on a zero divisor numpy does not
    raise, and the result (an infinity, NaN, or the floor, by the signs)
    is outside the reals; the model gives [None] there. *)
Definition calibrate_k_from_reference
    (t_ref_std_s A_ref_mbq recon_gain snr_ref_site : R) (tracer : string)
    (weight_kg height_cm : R) : option R :=
  let sensitivity := get_system_sensitivity tracer in
  let nec_ref := A_ref_mbq * t_ref_std_s * sensitivity in
  let sqrt_nec_ref := sqrt (Rmax nec_ref 1e-9) in
  if Req_dec_T (sqrt_nec_ref * recon_gain) 0 then None
  else
    let k := snr_ref_site / (sqrt_nec_ref * recon_gain) in
    Some (Rmax k 1e-9).

End PETPhysicsModel.

(** ** data_persistence.py: class KFactorStore *)

Module KFactorStore.
Import Py.

(** What [json.loads] can return; numbers are rationals. *)
#[warnings="-register-all"]
Inductive json : Type :=
  | JNull
  | JBool (b : bool)
  | JNum (x : Q)
  | JStr (s : string)
  | JArr (l : list json)
  | JObj (m : gmap string json).

(** A store as [add_k_measurement] builds it: a dict from keys to lists
    of floats, and the JSON value it is. *)
Definition store_json (store : gmap string (list Q)) : json :=
  JObj ((fun vals => JArr (JNum <$> vals)) <$> store).

(** *** numpy, on a list of numbers

    [np.median] and [np.percentile] (default method, linear) are library
    functions: they sort, then read or interpolate. *)

Fixpoint insert_sorted (x : Q) (l : list Q) : list Q :=
  match l with
  | [] => [x]
  | y :: r => if Qle_bool x y then x :: l else y :: insert_sorted x r
  end.

Definition np_sort (l : list Q) : list Q := foldr insert_sorted [] l.

Definition np_median (a : list Q) : Q :=
  let s := np_sort a in
  let n := List.length s in
  if Nat.even n then (nth (n / 2 - 1) s 0 + nth (n / 2) s 0) / 2
  else nth (n / 2) s 0.

Definition np_percentile (a : list Q) (q : Q) : Q :=
  let s := np_sort a in
  let n := List.length s in
  let virtual_index := (q / 100) * inject_Z (Z.of_nat (n - 1)) in
  let previous := Z.to_nat (Qfloor virtual_index) in
  let next := Nat.min (previous + 1) (n - 1) in
  let gamma := virtual_index - inject_Z (Qfloor virtual_index) in
  let lo := nth previous s 0 in
  let hi := nth next s 0 in
  lo + (hi - lo) * gamma.

(** *** The class, over an environment

    The file system and the JSON codec are the environment: a state
    [world], [Path.exists], [Path.read_text], [Path.write_text],
    [json.loads] and [json.dumps], each of which may raise.
    [Path.exists] gives False for a missing file and raises the OSError
    of any other failure of the test (a name too long, a directory that
    may not be searched). *)

Section Store.

Variable world : Type.
Variable path_exists : world -> outcome bool.
Variable read_text : world -> outcome string.
Variable write_text : string -> world -> world * outcome unit.
Variable json_loads : string -> outcome json.
Variable json_dumps : json -> outcome string.

(** The existence test is made before the [try]. *)
Definition load_store (w : world) : outcome json :=
  let* file_exists := path_exists w in
  if file_exists then
    try_except
      (let* text := read_text w in
       let* data := json_loads text in
       Return data)
      (Return (JObj ∅))
  else Return (JObj ∅).

(** The new state of the world, and the outcome of the call. *)
Definition save_store (store : json) (w : world) : world * outcome unit :=
  match json_dumps store with
  | Return text =>
      let (w', r) := write_text text w in
      (w', try_except r (Return tt))
  | Raise _ => (w, Return tt)
  end.

Definition store_key (tracer recon_profile : string) : string :=
  (tracer ++ "_" ++ recon_profile)%string.

(** [float(x)] keeps the value; the model takes the reduced fraction, so
    that equal floats are equal terms. *)
Definition float (x : Q) : Q := Qred x.

Definition add_k_measurement
    (store : gmap string (list Q)) (tracer recon_profile : string) (k_value : Q)
    (w : world) : world * outcome (gmap string (list Q)) :=
  let key := store_key tracer recon_profile in
  let arr := default [] (store !! key) in
  let arr := arr ++ [float k_value] in
  let store := <[key := arr]> store in
  let (w', r) := save_store (store_json store) w in
  (w', let* _ := r in Return store).

Definition summarize_k
    (store : gmap string (list Q)) (tracer recon_profile : string)
    : option (Q * Q * Q * nat) :=
  let key := store_key tracer recon_profile in
  let vals := default [] (store !! key) in
  match vals with
  | [] => None
  | _ => Some (float (np_median vals), float (np_percentile vals 25),
               float (np_percentile vals 75), List.length vals)
  end.

(** *** Reading the summary from the file

    [get_site_k_summary] hands whatever [load_store] returned to
    [summarize_k].  [summarize_k_loaded] is [summarize_k] on such a
    value: a value that is not a dict has no [get]; a value of the key
    that is truthy and not a list of numbers goes to numpy, which is not
    modelled there. *)

Inductive site_summary : Type :=
  | Summary (s : option (Q * Q * Q * nat))
  | AttributeError
  | OutsideNumpyModel.

(** [not j] is false. *)
Definition json_truthy (j : json) : bool :=
  match j with
  | JNull => false
  | JBool b => b
  | JNum x => negb (Qeq_bool x 0)
  | JStr s => negb (String.eqb s "")
  | JArr l => match l with [] => false | _ => true end
  | JObj m => match map_to_list m with [] => false | _ => true end
  end.

Fixpoint json_floats (l : list json) : option (list Q) :=
  match l with
  | [] => Some []
  | JNum x :: r =>
      match json_floats r with
      | Some xs => Some (x :: xs)
      | None => None
      end
  | _ :: _ => None
  end.

Definition summarize_k_loaded (store : json) (tracer recon_profile : string)
    : site_summary :=
  match store with
  | JObj m =>
      let key := store_key tracer recon_profile in
      let vals := default (JArr []) (m !! key) in
      if json_truthy vals then
        match vals with
        | JArr l =>
            match json_floats l with
            | Some a =>
                Summary (Some (float (np_median a), float (np_percentile a 25),
                               float (np_percentile a 75), List.length a))
            | None => OutsideNumpyModel
            end
        | _ => OutsideNumpyModel
        end
      else Summary None
  | _ => AttributeError
  end.

Definition get_site_k_summary (tracer recon_profile : string) (w : world)
    : outcome site_summary :=
  let* store := load_store w in
  Return (summarize_k_loaded store tracer recon_profile).

End Store.

(** *** An environment to run the class in

    A file kept in memory: [None] while it is missing, its text
    otherwise.  The existence test and a write never fail, a write
    replaces the text, and a missing file cannot be read. *)

Definition mem_exists (w : option string) : outcome bool :=
  Return (match w with Some _ => true | None => false end).

Definition mem_read_text (w : option string) : outcome string :=
  match w with
  | Some text => Return text
  | None => Raise OSError
  end.

Definition mem_write_text (text : string) (w : option string)
    : option string * outcome unit :=
  (Some text, Return tt).

(** A codec for stores.  It is not the text format of json: it writes a
    store as the bit string of its code and reads that back, and it
    refuses every other value.  It stands for json in having the round
    trip on stores. *)

Definition json_store (j : json) : option (gmap string (list Q)) :=
  match j with
  | JObj m =>
      list_to_map <$>
        mapM (fun kv : string * json =>
                match kv.2 with
                | JArr l => (fun a => (kv.1, a)) <$> json_floats l
                | _ => None
                end)
             (map_to_list m)
  | _ => None
  end.

#[local] Instance Q_eq_dec : EqDecision Q.
Proof. solve_decision. Defined.

#[local] Instance Q_countable : Countable Q :=
  inj_countable' (fun q => (Qnum q, Qden q)) (fun p => Qmake p.1 p.2)
    (fun q => match q with Qmake n d => eq_refl end).

Fixpoint pos_text (p : positive) : string :=
  match p with
  | xH => EmptyString
  | xO q => String "0"%char (pos_text q)
  | xI q => String "1"%char (pos_text q)
  end.

Fixpoint text_pos (s : string) : option positive :=
  match s with
  | EmptyString => Some xH
  | String c r =>
      match text_pos r with
      | Some q =>
          if Ascii.eqb c "0"%char then Some (xO q)
          else if Ascii.eqb c "1"%char then Some (xI q)
          else None
      | None => None
      end
  end.

Definition mem_dumps (j : json) : outcome string :=
  match json_store j with
  | Some store => Return (pos_text (encode store))
  | None => Raise TypeError
  end.

Definition mem_loads (text : string) : outcome json :=
  match text_pos text ≫= decode (A := gmap string (list Q)) with
  | Some store => Return (store_json store)
  | None => Raise ValueError
  end.

End KFactorStore.

(** ** Predicates of the specification *)

Module Policy.
Import Py PETPhysicsModel.
Local Open Scope R_scope.

(** The dwell time per bed position that a solver aims at before it
    derives the velocity, in the words of the specification.

    Standard and low-dose: the NEC required for the target SNR,
    (SNR_target / (k * recon_gain))^2 with k floored at 1e-9, over the
    count rate max(activity * sensitivity, 1e-6), times the BMI
    multiplier. *)
Definition required_dwell
    (snr_target k recon_gain activity mult_bmi : R) (tracer : string) : R :=
  (snr_target / (Rmax k 1e-9 * recon_gain)) ^ 2
    / Rmax (activity * get_system_sensitivity tracer) 1e-6 * mult_bmi.

(** Standard: the required dwell, clamped to the scan-time ceiling of
    the age group for a pediatric patient with a weight. *)
Definition standard_dwell
    (A_eff k recon_gain snr_target mult_bmi : R) (tracer : string)
    (is_pediatric : bool) (weight_kg : option R) : R :=
  let d := required_dwell snr_target k recon_gain A_eff mult_bmi tracer in
  match is_pediatric, weight_kg with
  | true, Some w => Rmin d (get_pediatric_scan_time_limit w)
  | _, _ => d
  end.

(** Low-dose: the activity is dose per kg times weight, scaled by the
    pediatric dose factor when pediatric; same inversion and ceiling. *)
Definition lowdose_activity (low_dpk weight_kg : R) (is_pediatric : bool) : R :=
  if is_pediatric then low_dpk * weight_kg * get_pediatric_dose_factor weight_kg
  else low_dpk * weight_kg.

Definition lowdose_dwell
    (low_dpk weight_kg k recon_gain snr_target mult_bmi : R) (tracer : string)
    (is_pediatric : bool) : R :=
  let d := required_dwell snr_target k recon_gain
             (lowdose_activity low_dpk weight_kg is_pediatric) mult_bmi tracer in
  if is_pediatric then Rmin d (get_pediatric_scan_time_limit weight_kg) else d.

(** Fast: the fast reference dwell times the BMI multiplier; for a
    pediatric patient with a weight, times 0.5 + 0.3 (dose_factor / 0.15)
    and capped at half the ceiling. *)
Definition fast_dwell
    (mult_bmi fast_t_ref : R) (is_pediatric : bool) (weight_kg : option R) : R :=
  match is_pediatric, weight_kg with
  | true, Some w =>
      Rmin (fast_t_ref * mult_bmi * (0.5 + 0.3 * (get_pediatric_dose_factor w / 0.15)))
           (get_pediatric_scan_time_limit w * 0.5)
  | _, _ => fast_t_ref * mult_bmi
  end.

(** The velocity policy of the solvers, for the dwell [t_bed] a solver
    aims at: the reported velocity [v] is the field of view over that
    dwell (floored at 1e-6), clamped to [0.5, 50.0] and rounded to one
    decimal, and the reported dwell time is the axial field of view
    over [v], not [t_bed]. *)
Definition velocity_policy (t_bed v t_bed_r : R) : Prop :=
  v = round1 (Rmax 0.5 (Rmin (AXFOV_MM / Rmax t_bed 1e-6) 50.0)) /\
  0.5 <= v <= 50.0 /\
  (exists n : Z, v = IZR n / 10) /\
  t_bed_r = AXFOV_MM / v.

End Policy.

(** * Properties *)

(** Case analysis on every comparison of reals in the goal. *)
Ltac cases_R :=
  unfold Py.ltb, Py.leb, Rmax, Rmin in *;
  repeat match goal with
    | |- context [Rle_dec ?a ?b] => destruct (Rle_dec a b); try lra
    | |- context [Rlt_dec ?a ?b] => destruct (Rlt_dec a b); try lra
    end.

(** ** Decimal rounding *)

Section Rounding.
Import Py.
Local Open Scope R_scope.

Lemma round1_spec (x : R) :
  exists n : Z, round1 x = IZR n / 10 /\ IZR n - 1 / 2 <= x * 10 <= IZR n + 1 / 2.
Proof.
  unfold round1.
  destruct (base_Int_part (x * 10)) as [Hlo Hhi].
  set (n := Int_part (x * 10)) in *.
  destruct (Rlt_dec (x * 10 - IZR n) (1 / 2)) as [Hlt | Hge].
  - exists n. split; [reflexivity | lra].
  - assert (Hup : IZR (n + 1) - 1 / 2 <= x * 10 <= IZR (n + 1) + 1 / 2)
      by (rewrite plus_IZR; lra).
    destruct (Rlt_dec (1 / 2) (x * 10 - IZR n)) as [Hgt | Heq].
    + exists (n + 1)%Z. split; [reflexivity | exact Hup].
    + destruct (Z.even n).
      * exists n. split; [reflexivity | lra].
      * exists (n + 1)%Z. split; [reflexivity | exact Hup].
Qed.

Lemma round1_near (x : R) (n : Z) :
  IZR n - 1 / 2 < x * 10 < IZR n + 1 / 2 -> round1 x = IZR n / 10.
Proof.
  intros [Hlo Hhi].
  destruct (round1_spec x) as (m & -> & Hm).
  assert (Hlt1 : IZR m < IZR n + 1) by lra.
  assert (Hlt2 : IZR n < IZR m + 1) by lra.
  rewrite <- plus_IZR in Hlt1, Hlt2.
  apply lt_IZR in Hlt1, Hlt2.
  replace m with n by lia. reflexivity.
Qed.

Lemma round1_tenth (n : Z) : round1 (IZR n / 10) = IZR n / 10.
Proof. apply round1_near. lra. Qed.

Lemma round1_mono (x y : R) : x <= y -> round1 x <= round1 y.
Proof.
  intros Hxy.
  destruct (Req_dec x y) as [-> | Hne]; [lra |].
  destruct (round1_spec x) as (n & -> & Hn).
  destruct (round1_spec y) as (m & -> & Hm).
  assert (Hlt : IZR n < IZR m + 1) by lra.
  rewrite <- plus_IZR in Hlt. apply lt_IZR in Hlt.
  assert (Hle : (n <= m)%Z) by lia.
  apply IZR_le in Hle. lra.
Qed.

Lemma round1_error (x : R) : Rabs (round1 x - x) <= 0.05.
Proof.
  destruct (round1_spec x) as (n & -> & Hn).
  apply Rabs_le. lra.
Qed.

(** The clamp of a solver, then the rounding. *)
Lemma velocity_bounds (v : R) :
  0.5 <= round1 (Rmax 0.5 (Rmin v 50.0)) <= 50.0.
Proof.
  assert (H5 : round1 0.5 = 0.5).
  { replace 0.5 with (IZR 5 / 10) by lra. apply round1_tenth. }
  assert (H50 : round1 50.0 = 50.0).
  { replace 50.0 with (IZR 500 / 10) by lra. apply round1_tenth. }
  assert (Hc : 0.5 <= Rmax 0.5 (Rmin v 50.0) <= 50.0).
  { unfold Rmax, Rmin. repeat (destruct Rle_dec; try lra). }
  split.
  - rewrite <- H5 at 1. apply round1_mono, Hc.
  - rewrite <- H50 at 2. apply round1_mono, Hc.
Qed.

End Rounding.

(** ** The pediatric tables *)

Section Pediatric.
Import Py PETPhysicsModel.
Local Open Scope R_scope.

Lemma ltb_lt (x y : R) : ltb x y = true <-> x < y.
Proof. unfold ltb. destruct (Rlt_dec x y); split; intros; try lra; congruence. Qed.

Lemma ltb_ge (x y : R) : ltb x y = false <-> y <= x.
Proof. unfold ltb. destruct (Rlt_dec x y); split; intros; try lra; congruence. Qed.

Lemma leb_le (x y : R) : leb x y = true <-> x <= y.
Proof. unfold leb. destruct (Rle_dec x y); split; intros; try lra; congruence. Qed.

Lemma leb_gt (x y : R) : leb x y = false <-> y < x.
Proof. unfold leb. destruct (Rle_dec x y); split; intros; try lra; congruence. Qed.

(** The group of a weight: the first range of the table that holds it,
    so a weight on a shared bound belongs to the younger group. *)
Lemma age_group_view (w : R) :
  ((w < 0.5 \/ 100 < w) /\ get_pediatric_age_group w = None) \/
  (0.5 <= w <= 5 /\ get_pediatric_age_group w = Some "neonate"%string) \/
  (5 < w <= 15 /\ get_pediatric_age_group w = Some "infant"%string) \/
  (15 < w <= 25 /\ get_pediatric_age_group w = Some "toddler"%string) \/
  (25 < w <= 50 /\ get_pediatric_age_group w = Some "child"%string) \/
  (50 < w <= 100 /\ get_pediatric_age_group w = Some "adolescent"%string).
Proof.
  unfold get_pediatric_age_group, PEDIATRIC_WEIGHT_RANGES, first_group.
  cases_R; cbn [andb]; intuition (first [reflexivity | lra]).
Qed.

(** Dose factor and scan-time ceiling, by weight. *)
Lemma pediatric_tables_view (w : R) :
  let df := get_pediatric_dose_factor w in
  let lim := get_pediatric_scan_time_limit w in
  ((w < 0.5 \/ 100 < w) /\ df = 1.0 /\ lim = 180.0) \/
  (0.5 <= w <= 5 /\ df = 0.02 /\ lim = 30.0) \/
  (5 < w <= 15 /\ df = 0.05 /\ lim = 60.0) \/
  (15 < w <= 25 /\ df = 0.10 /\ lim = 120.0) \/
  (25 < w <= 50 /\ df = 0.15 /\ lim = 180.0) \/
  (50 < w <= 100 /\ df = 0.75 /\ lim = 240.0).
Proof.
  unfold get_pediatric_dose_factor, get_pediatric_scan_time_limit.
  destruct (age_group_view w) as [[H ->] | [[H ->] | [[H ->] | [[H ->] | [[H ->] | [H ->]]]]]];
    cbn; tauto.
Qed.

End Pediatric.

(** ** The pediatric gate *)

Section PediatricGate.
Import Py PETPhysicsModel.
Local Open Scope R_scope.

(** C1, as stated, fails at the boundary: a patient of exactly 35.0 kg
    is not classified pediatric. *)
Lemma is_pediatric_patient_at_35 : is_pediatric_patient 35.0 = false.
Proof. unfold is_pediatric_patient. apply ltb_ge. lra. Qed.

(** The pediatric branch of [calculate_lbm]: a factor of the tables
    times the weight, whatever the height and the gender. *)
Lemma calculate_lbm_pediatric (w h : R) (g : option string) :
  w < 35 ->
  exists f, (f = 0.85 \/ f = 0.80 \/ f = 0.75 \/ f = 0.70) /\
            calculate_lbm w h g = Return (w * f).
Proof.
  intros Hw. unfold calculate_lbm, is_pediatric_patient.
  rewrite (proj2 (ltb_lt w 35.0)) by lra.
  destruct (age_group_view w) as [[H ->] | [[H ->] | [[H ->] | [[H ->] | [[H ->] | [H ->]]]]]];
    cbn [truthy negb String.eqb dict_get dict_lookup PEDIATRIC_LBM_FACTORS Ascii.eqb Bool.eqb];
    try (eexists; split; [| reflexivity]; tauto); try lra.
  destruct (ltb w 10) eqn:E; [eexists; split; [| reflexivity]; tauto |].
  apply ltb_ge in E. lra.
Qed.

(** The adult branch of [calculate_lbm]. *)
Lemma calculate_lbm_adult (w h : R) (g : option string) :
  35 <= w -> h <> 0 ->
  calculate_lbm w h g =
    Return (Rmax (if is_male g then 1.10 * w - 128 * (w / h) ^ 2
                  else 1.07 * w - 148 * (w / h) ^ 2) 30.0).
Proof.
  intros Hw Hh. unfold calculate_lbm, is_pediatric_patient, div.
  rewrite (proj2 (ltb_ge w 35.0)) by lra.
  destruct (Req_dec_T h 0); [contradiction | reflexivity].
Qed.

(** C1 (amended): [is_pediatric_patient] is true below 35 kg and false
    from 35 kg on, the boundary 35.0 included; [calculate_lbm] branches
    on this test; the solvers do not call it: they are gated by their
    [is_pediatric] argument, and with that argument false the weight
    changes nothing in [solve_standard] and [solve_fast]. *)
Theorem is_pediatric_patient_gate :
  (forall w, w < 35 -> is_pediatric_patient w = true) /\
  (forall w, 35 <= w -> is_pediatric_patient w = false) /\
  (forall w h g, w < 35 ->
     exists f, (f = 0.85 \/ f = 0.80 \/ f = 0.75 \/ f = 0.70) /\
               calculate_lbm w h g = Return (w * f)) /\
  (forall w h g, 35 <= w -> h <> 0 ->
     calculate_lbm w h g =
       Return (Rmax (if is_male g then 1.10 * w - 128 * (w / h) ^ 2
                     else 1.07 * w - 148 * (w / h) ^ 2) 30.0)) /\
  (forall A k gain snr mult range tracer w h,
     solve_standard A k gain snr mult range tracer false w h =
     solve_standard A k gain snr mult range tracer false None None) /\
  (forall A k gain mult t_ref range tracer w h,
     solve_fast A k gain mult t_ref range tracer false w h =
     solve_fast A k gain mult t_ref range tracer false None None).
Proof.
  split; [| split; [| split; [| split; [| split]]]].
  - intros w Hw. unfold is_pediatric_patient. apply ltb_lt. lra.
  - intros w Hw. unfold is_pediatric_patient. apply ltb_ge. lra.
  - apply calculate_lbm_pediatric.
  - apply calculate_lbm_adult.
  - reflexivity.
  - reflexivity.
Qed.

Lemma is_pediatric_patient_gate_witness :
  is_pediatric_patient 20 = true /\ is_pediatric_patient 70 = false /\
  calculate_lbm 70 170 (Some "male"%string) =
    Return (Rmax (1.10 * 70 - 128 * (70 / 170) ^ 2) 30.0).
Proof.
  destruct is_pediatric_patient_gate as (Hlt & Hge & _ & Hadult & _).
  split; [apply Hlt; lra |]. split; [apply Hge; lra |].
  rewrite (Hadult 70 170 (Some "male"%string)) by lra. reflexivity.
Defined.

End PediatricGate.

(** ** The velocity policy of the three solvers *)

Section VelocityPolicy.
Import Py PETPhysicsModel Policy.
Local Open Scope R_scope.

Lemma velocity_policy_intro (t_bed : R) :
  let v := round1 (Rmax 0.5 (Rmin (AXFOV_MM / Rmax t_bed 1e-6) 50.0)) in
  velocity_policy t_bed v (AXFOV_MM / v).
Proof.
  intros v. unfold velocity_policy. split; [reflexivity |].
  split; [apply velocity_bounds |]. split; [| reflexivity].
  destruct (round1_spec (Rmax 0.5 (Rmin (AXFOV_MM / Rmax t_bed 1e-6) 50.0))) as (n & Hn & _).
  exists n. exact Hn.
Qed.

(** The one division of the SNR inversion that can raise. *)
Lemma snr_ratio_returns (snr k gain : R) :
  gain <> 0 -> div snr (Rmax k 1e-9 * gain) = Return (snr / (Rmax k 1e-9 * gain)).
Proof.
  intros Hg. unfold div.
  destruct (Req_dec_T (Rmax k 1e-9 * gain) 0) as [H0 | _]; [| reflexivity].
  exfalso. assert (Hk : 0 < Rmax k 1e-9) by (unfold Rmax; destruct Rle_dec; lra).
  apply Rmult_integral in H0. destruct H0; [lra | contradiction].
Qed.




Lemma solve_standard_policy A k gain snr mult range tracer ped w h :
  gain <> 0 ->
  exists v t m s c ok,
    solve_standard A k gain snr mult range tracer ped w h = Return (v, t, m, s, c, ok) /\
    velocity_policy (standard_dwell A k gain snr mult tracer ped w) v t.
Proof.
  intros Hg. unfold solve_standard. rewrite snr_ratio_returns by exact Hg.
  cbn [bind]. do 6 eexists. split; [reflexivity |].
  replace (standard_dwell A k gain snr mult tracer ped w) with
    (if ped
     then match w with
          | Some w0 =>
              Rmin ((snr / (Rmax k 1e-9 * gain)) ^ 2
                      / Rmax (A * get_system_sensitivity tracer) 1e-6 * mult)
                   (get_pediatric_scan_time_limit w0)
          | None =>
              (snr / (Rmax k 1e-9 * gain)) ^ 2
                / Rmax (A * get_system_sensitivity tracer) 1e-6 * mult
          end
     else (snr / (Rmax k 1e-9 * gain)) ^ 2
            / Rmax (A * get_system_sensitivity tracer) 1e-6 * mult)
    by (unfold standard_dwell, required_dwell; destruct ped, w; reflexivity).
  apply velocity_policy_intro.
Qed.

Lemma solve_lowdose_policy dpk w k gain snr mult range tracer ped h :
  gain <> 0 ->
  exists A v t m s c ok,
    solve_lowdose dpk w k gain snr mult range tracer ped h = Return (A, v, t, m, s, c, ok) /\
    A = lowdose_activity dpk w ped /\
    velocity_policy (lowdose_dwell dpk w k gain snr mult tracer ped) v t.
Proof.
  intros Hg. unfold solve_lowdose. rewrite snr_ratio_returns by exact Hg.
  cbn [bind]. do 7 eexists. split; [reflexivity |]. split; [reflexivity |].
  unfold lowdose_dwell, required_dwell, lowdose_activity.
  destruct ped; apply velocity_policy_intro.
Qed.

Lemma solve_fast_policy A k gain mult t_ref range tracer ped w h :
  exists v t m s c,
    solve_fast A k gain mult t_ref range tracer ped w h = (v, t, m, s, c) /\
    velocity_policy (fast_dwell mult t_ref ped w) v t.
Proof.
  unfold solve_fast. do 5 eexists. split; [reflexivity |].
  unfold fast_dwell. destruct ped, w; apply velocity_policy_intro.
Qed.

(** C3: each of the three solvers takes the dwell it aims at (the
    required dwell of the SNR inversion, or the fast reference dwell,
    with the pediatric adjustments), derives the velocity 263 / max(dwell,
    1e-6), clamps it to [0.5, 50.0] mm/s and rounds it to one decimal, and
    reports as dwell time the axial field of view divided by that
    rounded velocity, not the dwell it aimed at.  For [solve_standard]
    and [solve_lowdose] the gain is taken not to be zero, which keeps
    the division of the SNR inversion defined. *)
Theorem solvers_clamp_round_back_derive :
  (forall A k gain snr mult range tracer ped w h,
     gain <> 0 ->
     exists v t m s c ok,
       solve_standard A k gain snr mult range tracer ped w h = Return (v, t, m, s, c, ok) /\
       velocity_policy (standard_dwell A k gain snr mult tracer ped w) v t) /\
  (forall dpk w k gain snr mult range tracer ped h,
     gain <> 0 ->
     exists A v t m s c ok,
       solve_lowdose dpk w k gain snr mult range tracer ped h = Return (A, v, t, m, s, c, ok) /\
       A = lowdose_activity dpk w ped /\
       velocity_policy (lowdose_dwell dpk w k gain snr mult tracer ped) v t) /\
  (forall A k gain mult t_ref range tracer ped w h,
     exists v t m s c,
       solve_fast A k gain mult t_ref range tracer ped w h = (v, t, m, s, c) /\
       velocity_policy (fast_dwell mult t_ref ped w) v t).
Proof.
  split; [| split].
  - intros. apply solve_standard_policy. assumption.
  - intros. apply solve_lowdose_policy. assumption.
  - intros. apply solve_fast_policy.
Qed.

Lemma solvers_clamp_round_back_derive_witness :
  exists v t m s c ok,
    solve_standard 280 1 1.6 12.0 1 1050 "FDG" false None None = Return (v, t, m, s, c, ok) /\
    velocity_policy (standard_dwell 280 1 1.6 12.0 1 "FDG" false None) v t.
Proof.
  destruct solvers_clamp_round_back_derive as (Hstd & _ & _).
  apply Hstd. lra.
Defined.

(** The policy decides the velocity: the fast protocol with a reference
    dwell of 120 s reports 2.2 mm/s and 263/2.2 s, where cutting the
    velocity 2.19 off to 2.1 would also be a tenth within the bounds. *)
Lemma velocity_policy_decides :
  forall v t, velocity_policy (fast_dwell 1 120 false None) v t ->
              v = 2.2 /\ t = 263 / 2.2.
Proof.
  intros v t (Hv & _ & _ & Ht).
  assert (E : v = 2.2).
  { rewrite Hv. unfold fast_dwell.
    replace (Rmax (120 * 1) 1e-6) with 120 by (unfold Rmax; destruct Rle_dec; lra).
    replace (Rmin (AXFOV_MM / 120) 50.0) with (263 / 120)
      by (unfold Rmin, AXFOV_MM; destruct Rle_dec; lra).
    replace (Rmax 0.5 (263 / 120)) with (263 / 120) by (unfold Rmax; destruct Rle_dec; lra).
    rewrite (round1_near (263 / 120) 22) by lra. lra. }
  split; [exact E |]. rewrite Ht, E. unfold AXFOV_MM. lra.
Qed.

End VelocityPolicy.

(** ** Predicted SNR and the reported dwell time *)

Section RoundTrip.
Import Py PETPhysicsModel Policy.
Local Open Scope R_scope.

(** Both tracers have the sensitivity of the literature. *)
Lemma get_system_sensitivity_value (tracer : string) :
  get_system_sensitivity tracer = 9100.
Proof.
  unfold get_system_sensitivity, tracer_key.
  destruct (contains "PSMA" (upper tracer)); cbn; lra.
Qed.

Lemma calculate_snr_from_nec_pos (nec gain : R) :
  0 < gain -> 0 < calculate_snr_from_nec nec gain.
Proof.
  intros Hg. unfold calculate_snr_from_nec.
  apply Rmult_lt_0_compat; [| exact Hg].
  apply sqrt_lt_R0. unfold Rmax. destruct Rle_dec; lra.
Qed.

(** C2, as stated, fails: with k = 2 the dwell time that
    [solve_standard] reports, fed to [calculate_nec] and
    [calculate_snr_from_nec] with the same activity, tracer and gain,
    gives half the reported [snr_pred], more than 2000 below it. *)
Lemma solve_standard_refeed_k2 :
  exists v t m s c ok,
    solve_standard 100 2 1 12 1 1000 "FDG" false None None = Return (v, t, m, s, c, ok) /\
    t = 263 / 50 /\
    2000 < s - calculate_snr_from_nec (calculate_nec 100 t "FDG") 1.
Proof.
  unfold solve_standard. rewrite snr_ratio_returns by lra. cbn [bind].
  do 6 eexists. split; [reflexivity |].
  rewrite get_system_sensitivity_value.
  assert (Hv : round1 (Rmax 0.5 (Rmin (AXFOV_MM /
             Rmax ((12 / (Rmax 2 1e-9 * 1)) ^ 2 / Rmax (100 * 9100) 1e-6 * 1) 1e-6) 50.0)) = 50).
  { replace (Rmax 2 1e-9) with 2 by (unfold Rmax; destruct Rle_dec; lra).
    replace (Rmax (100 * 9100) 1e-6) with 910000 by (unfold Rmax; destruct Rle_dec; lra).
    replace ((12 / (2 * 1)) ^ 2 / 910000 * 1) with (36 / 910000) by (field_simplify; lra).
    replace (Rmax (36 / 910000) 1e-6) with (36 / 910000) by (unfold Rmax; destruct Rle_dec; lra).
    replace (Rmin (AXFOV_MM / (36 / 910000)) 50.0) with 50.
    2:{ unfold Rmin, AXFOV_MM. destruct Rle_dec as [H | H]; lra. }
    replace (Rmax 0.5 50) with (IZR 500 / 10) by (unfold Rmax; destruct Rle_dec; lra).
    rewrite round1_tenth. lra. }
  rewrite Hv. unfold AXFOV_MM. split; [lra |].
  unfold calculate_snr_from_nec, calculate_nec.
  rewrite get_system_sensitivity_value.
  replace (Rmax (100 * (263.0 / 50) * 9100) 1e-9) with 4786600
    by (unfold Rmax; destruct Rle_dec; lra).
  assert (Hs : 2000 < sqrt 4786600).
  { replace 2000 with (sqrt (2000 * 2000)) by (apply sqrt_square; lra).
    apply sqrt_lt_1; lra. }
  lra.
Qed.

(** C2 (amended): the predicted SNR that [solve_standard] reports is the
    calibration constant k times the SNR that [calculate_nec] and
    [calculate_snr_from_nec] give for the reported dwell time, with the
    same effective activity, tracer and reconstruction gain; the two
    agree exactly, and the factor k cannot be left out unless k = 1. *)
Theorem solve_standard_snr_round_trip A k gain snr mult range tracer ped w h :
  gain <> 0 ->
  exists v t m s c ok,
    solve_standard A k gain snr mult range tracer ped w h = Return (v, t, m, s, c, ok) /\
    s = k * calculate_snr_from_nec (calculate_nec A t tracer) gain /\
    (s = calculate_snr_from_nec (calculate_nec A t tracer) gain <-> k = 1).
Proof.
  intros Hg. unfold solve_standard. rewrite snr_ratio_returns by exact Hg.
  cbn [bind]. do 6 eexists. split; [reflexivity |]. split; [reflexivity |].
  set (x := calculate_snr_from_nec _ gain).
  assert (Hx : x <> 0).
  { unfold x, calculate_snr_from_nec. apply Rmult_integral_contrapositive_currified; [| exact Hg].
    apply Rgt_not_eq, sqrt_lt_R0. unfold Rmax. destruct Rle_dec; lra. }
  split; intros H.
  - apply (Rmult_eq_reg_r x); [lra | exact Hx].
  - subst k. lra.
Qed.

Lemma solve_standard_snr_round_trip_witness :
  exists v t m s c ok,
    solve_standard 280 1 1.6 12.0 1 1050 "FDG" true (Some 20) None = Return (v, t, m, s, c, ok) /\
    s = 1 * calculate_snr_from_nec (calculate_nec 280 t "FDG") 1.6 /\
    (s = calculate_snr_from_nec (calculate_nec 280 t "FDG") 1.6 <-> 1 = 1).
Proof.
  apply (solve_standard_snr_round_trip 280 1 1.6 12.0 1 1050 "FDG" true (Some 20) None).
  lra.
Defined.

End RoundTrip.

(** ** The fast protocol for pediatric patients *)

Section FastPediatric.
Import Py PETPhysicsModel Policy.
Local Open Scope R_scope.

Lemma div_antitone (a x y : R) : 0 <= a -> 0 < x <= y -> a / y <= a / x.
Proof.
  intros Ha [Hx Hxy]. unfold Rdiv. apply Rmult_le_compat_l; [exact Ha |].
  apply Rinv_le_contravar; assumption.
Qed.

(** A dwell time capped at [cap] gives a clamped velocity of at least
    the field of view over [cap]. *)
Lemma clamp_lower (t cap : R) :
  t <= cap -> 263 / 50 <= cap ->
  AXFOV_MM / cap <= Rmax 0.5 (Rmin (AXFOV_MM / Rmax t 1e-6) 50.0).
Proof.
  intros Ht Hcap. unfold AXFOV_MM.
  assert (Hm : 0 < Rmax t 1e-6 <= cap) by (unfold Rmax; destruct Rle_dec; lra).
  assert (H1 : 263.0 / cap <= 263.0 / Rmax t 1e-6) by (apply div_antitone; lra).
  assert (H2 : 263.0 / cap <= 50.0).
  { replace 50.0 with (263.0 / (263 / 50)) by (field_simplify; lra).
    apply div_antitone; lra. }
  unfold Rmax at 1. unfold Rmin. repeat (destruct Rle_dec; try lra).
Qed.

(** The dose factor and the ceiling of a patient of 30 kg. *)
Lemma tables_at_30 :
  get_pediatric_dose_factor 30 = 0.15 /\ get_pediatric_scan_time_limit 30 = 180.0.
Proof.
  destruct (pediatric_tables_view 30)
    as [[H E] | [[H E] | [[H E] | [[H E] | [[H E] | [H E]]]]]];
    solve [lra | exact E].
Qed.

(** The fast protocol at 30 kg, reference dwell 120 s, BMI multiplier 1:
    the capped dwell is 90 s and 263/90 rounds down to 2.9 mm/s. *)
Lemma solve_fast_at_30kg :
  exists m s c,
    solve_fast 280 1 1.6 1 120 1050 "FDG" true (Some 30) None = (2.9, 263 / 2.9, m, s, c).
Proof.
  destruct tables_at_30 as [Hdf Hlim].
  unfold solve_fast. rewrite Hdf, Hlim.
  assert (Hv : round1 (Rmax 0.5 (Rmin (AXFOV_MM /
             Rmax (Rmin (120 * 1 * (0.5 + 0.3 * (0.15 / 0.15))) (180.0 * 0.5)) 1e-6) 50.0)) = 2.9).
  { replace (Rmin (120 * 1 * (0.5 + 0.3 * (0.15 / 0.15))) (180.0 * 0.5)) with 90
      by (unfold Rmin; destruct Rle_dec; lra).
    replace (Rmax 90 1e-6) with 90 by (unfold Rmax; destruct Rle_dec; lra).
    replace (Rmin (AXFOV_MM / 90) 50.0) with (263 / 90)
      by (unfold Rmin, AXFOV_MM; destruct Rle_dec; lra).
    replace (Rmax 0.5 (263 / 90)) with (263 / 90) by (unfold Rmax; destruct Rle_dec; lra).
    rewrite (round1_near (263 / 90) 29) by lra. lra. }
  rewrite Hv. replace (AXFOV_MM / 2.9) with (263 / 2.9) by (unfold AXFOV_MM; lra).
  do 3 eexists. reflexivity.
Qed.

(** C4, as stated, fails: for a pediatric patient of 30 kg (reference
    dwell 120 s, BMI multiplier 1) the dwell is capped at 90 s, half the
    ceiling of 180 s, but the velocity 263/90 rounds down to 2.9 mm/s
    and the reported dwell time 263/2.9 exceeds 90 s. *)
Lemma solve_fast_30kg_exceeds_half_ceiling :
  is_pediatric_patient 30 = true /\
  get_pediatric_scan_time_limit 30 * 0.5 = 90 /\
  exists v t m s c,
    solve_fast 280 1 1.6 1 120 1050 "FDG" true (Some 30) None = (v, t, m, s, c) /\
    v = 2.9 /\ t = 263 / 2.9 /\ 90 < t.
Proof.
  destruct tables_at_30 as [_ Hlim].
  split; [apply ltb_lt; lra |]. split; [rewrite Hlim; lra |].
  destruct solve_fast_at_30kg as (m & s & c & E).
  exists 2.9, (263 / 2.9), m, s, c. repeat split; [exact E | lra].
Qed.

(** After the cap, the rounding can only lose 0.05 mm/s. *)
Lemma dwell_after_cap (t cap : R) :
  t <= cap -> 263 / 50 <= cap <= 526 ->
  let v := round1 (Rmax 0.5 (Rmin (AXFOV_MM / Rmax t 1e-6) 50.0)) in
  AXFOV_MM / v <= AXFOV_MM / (AXFOV_MM / cap - 0.05).
Proof.
  intros Ht [Hlo Hhi] v.
  pose proof (clamp_lower t cap Ht Hlo) as Hc.
  pose proof (round1_error (Rmax 0.5 (Rmin (AXFOV_MM / Rmax t 1e-6) 50.0))) as He.
  fold v in He.
  assert (Hge : 0.5 <= AXFOV_MM / cap).
  { unfold AXFOV_MM. replace 0.5 with (263.0 / 526) by lra. apply div_antitone; lra. }
  assert (Hv : AXFOV_MM / cap - 0.05 <= v).
  { unfold Rabs in He. destruct Rcase_abs; lra. }
  apply div_antitone; unfold AXFOV_MM in *; lra.
Qed.

(** Where the velocity of the cap rounds up, the cap survives the
    rounding. *)
Lemma dwell_within_cap (t cap : R) (n : Z) :
  t <= cap -> 263 / 50 <= cap ->
  IZR n - 1 / 2 < AXFOV_MM / cap * 10 < IZR n + 1 / 2 ->
  0 < IZR n -> 2630 <= cap * IZR n ->
  let v := round1 (Rmax 0.5 (Rmin (AXFOV_MM / Rmax t 1e-6) 50.0)) in
  AXFOV_MM / v <= cap.
Proof.
  intros Ht Hlo Hn Hpos Hup v.
  pose proof (clamp_lower t cap Ht Hlo) as Hc.
  apply round1_mono in Hc. rewrite (round1_near _ n Hn) in Hc. fold v in Hc.
  apply Rle_trans with (AXFOV_MM / (IZR n / 10)).
  - apply div_antitone; unfold AXFOV_MM; lra.
  - unfold AXFOV_MM. replace 263.0 with 263 by lra.
    apply Rle_trans with (2630 / IZR n); [right; field; lra |].
    apply Rmult_le_reg_r with (IZR n); [exact Hpos |].
    replace (2630 / IZR n * IZR n) with 2630 by (field; lra). exact Hup.
Qed.

(** C4 (amended): for a pediatric call with a weight, [solve_fast]
    scales the fast reference dwell by the BMI multiplier and by
    0.5 + 0.3 (dose_factor / 0.15), and caps it at half the age-group
    ceiling; the velocity is the clamped and rounded velocity of that
    capped dwell and the reported dwell is the field of view over it,
    which is at most 263 / (263 / half_ceiling - 0.05), and at most half
    the ceiling itself for weights in (5, 25] (so for 20 kg) and in
    (50, 100]. *)
Theorem solve_fast_pediatric A k gain mult t_ref range tracer w h :
  let df := get_pediatric_dose_factor w in
  let half := get_pediatric_scan_time_limit w * 0.5 in
  let t_fast := Rmin (t_ref * mult * (0.5 + 0.3 * (df / 0.15))) half in
  exists v t m s c,
    solve_fast A k gain mult t_ref range tracer true (Some w) h = (v, t, m, s, c) /\
    v = round1 (Rmax 0.5 (Rmin (AXFOV_MM / Rmax t_fast 1e-6) 50.0)) /\
    t = AXFOV_MM / v /\
    t_fast <= half /\
    t <= AXFOV_MM / (AXFOV_MM / half - 0.05) /\
    (5 < w <= 25 \/ 50 < w <= 100 -> t <= half).
Proof.
  intros df half t_fast. unfold solve_fast. fold df half t_fast.
  do 5 eexists. split; [reflexivity |]. split; [reflexivity |]. split; [reflexivity |].
  assert (Hcap : t_fast <= half) by (unfold t_fast; apply Rmin_r).
  split; [exact Hcap |].
  destruct (pediatric_tables_view w)
    as [[H [_ E]] | [[H [_ E]] | [[H [_ E]] | [[H [_ E]] | [[H [_ E]] | [H [_ E]]]]]]];
    assert (Hh : half = get_pediatric_scan_time_limit w * 0.5) by reflexivity;
    rewrite E in Hh.
  - split; [apply dwell_after_cap; lra | intros; lra].
  - split; [apply dwell_after_cap; lra | intros; lra].
  - split; [apply dwell_after_cap; lra |]. intros _.
    apply (dwell_within_cap t_fast half 88); unfold AXFOV_MM; rewrite ?Hh; lra.
  - split; [apply dwell_after_cap; lra |]. intros _.
    apply (dwell_within_cap t_fast half 44); unfold AXFOV_MM; rewrite ?Hh; lra.
  - split; [apply dwell_after_cap; lra | intros; lra].
  - split; [apply dwell_after_cap; lra |]. intros _.
    apply (dwell_within_cap t_fast half 22); unfold AXFOV_MM; rewrite ?Hh; lra.
Qed.

Lemma solve_fast_pediatric_witness :
  exists v t m s c,
    solve_fast 280 1 1.6 1 120 1050 "FDG" true (Some 20) None = (v, t, m, s, c) /\
    t <= get_pediatric_scan_time_limit 20 * 0.5.
Proof.
  destruct (solve_fast_pediatric 280 1 1.6 1 120 1050 "FDG" 20 None)
    as (v & t & m & s & c & E & _ & _ & _ & _ & H).
  exists v, t, m, s, c. split; [exact E |]. apply H. lra.
Defined.

End FastPediatric.

(** ** A pediatric call without a weight *)

Section PediatricWithoutWeight.
Import Py PETPhysicsModel Policy.
Local Open Scope R_scope.

(** C10: called with [is_pediatric=True] and [weight_kg=None],
    [solve_standard] applies no scan-time ceiling and [solve_fast]
    neither the reduction factor nor the half-ceiling cap: each gives the
    result of the adult call, and the fast velocity is the one of the
    reference dwell times the BMI multiplier alone. *)
Theorem pediatric_flag_without_weight :
  (forall A k gain snr mult range tracer h w' h',
     solve_standard A k gain snr mult range tracer true None h =
     solve_standard A k gain snr mult range tracer false w' h') /\
  (forall A k gain mult t_ref range tracer h w' h',
     solve_fast A k gain mult t_ref range tracer true None h =
     solve_fast A k gain mult t_ref range tracer false w' h') /\
  (forall A k gain mult t_ref range tracer h,
     exists v t m s c,
       solve_fast A k gain mult t_ref range tracer true None h = (v, t, m, s, c) /\
       v = round1 (Rmax 0.5 (Rmin (AXFOV_MM / Rmax (t_ref * mult) 1e-6) 50.0)) /\
       t = AXFOV_MM / v).
Proof.
  split; [| split].
  - reflexivity.
  - reflexivity.
  - intros. unfold solve_fast. do 5 eexists. repeat split.
Qed.

(** With the weight supplied the same call is adjusted: 30 kg turns the
    velocity 2.2 mm/s of the unadjusted call into 2.9 mm/s. *)
Lemma solve_fast_weight_supplied :
  (exists t m s c,
     solve_fast 280 1 1.6 1 120 1050 "FDG" true None None = (2.2, t, m, s, c)) /\
  (exists t m s c,
     solve_fast 280 1 1.6 1 120 1050 "FDG" true (Some 30) None = (2.9, t, m, s, c)).
Proof.
  split.
  - unfold solve_fast.
    assert (Hv : round1 (Rmax 0.5 (Rmin (AXFOV_MM / Rmax (120 * 1) 1e-6) 50.0)) = 2.2).
    { replace (Rmax (120 * 1) 1e-6) with 120 by (unfold Rmax; destruct Rle_dec; lra).
      replace (Rmin (AXFOV_MM / 120) 50.0) with (263 / 120)
        by (unfold Rmin, AXFOV_MM; destruct Rle_dec; lra).
      replace (Rmax 0.5 (263 / 120)) with (263 / 120) by (unfold Rmax; destruct Rle_dec; lra).
      rewrite (round1_near (263 / 120) 22) by lra. lra. }
    rewrite Hv. do 4 eexists. reflexivity.
  - destruct solve_fast_at_30kg as (m & s & c & E).
    exists (263 / 2.9), m, s, c. exact E.
Qed.

End PediatricWithoutWeight.

(** ** Decay correction *)

Section Decay.
Import Py PETPhysicsModel.
Local Open Scope R_scope.

Lemma half_life_value (tracer : string) :
  dict_index HALF_LIFE_MIN (tracer_key tracer) = Return 109.77.
Proof. unfold tracer_key. destruct (contains "PSMA" (upper tracer)); reflexivity. Qed.

(** The closed form of [effective_activity_mbq]: it never raises. *)
Lemma effective_activity_mbq_value (injected inj start : R) (tracer : string) (residual : R) :
  effective_activity_mbq injected inj start tracer residual =
    Return (Rmax (injected - residual) 0.0 *
            exp (- (ln 2 / 109.77) * Rmax ((start - inj) / 60.0) 0.0)).
Proof. unfold effective_activity_mbq. rewrite half_life_value. reflexivity. Qed.

Lemma decay_constant_pos : 0 < ln 2 / 109.77.
Proof. pose proof ln_lt_2. apply Rdiv_lt_0_compat; lra. Qed.

Lemma exp_monotone (x y : R) : x <= y -> exp x <= exp y.
Proof.
  intros [Hlt | ->]; [left; apply exp_increasing; exact Hlt | right; reflexivity].
Qed.

(** C5: for fixed injected activity, residual and tracer the effective
    activity does not grow when the scan starts later, and falls
    strictly once the scan starts after the injection and some activity
    is left; with the scan starting at the injection time, or before it,
    it is max(injected - residual, 0), and no call fails. *)
Theorem effective_activity_mbq_decay (injected inj : R) (tracer : string) (residual : R) :
  (forall s1 s2, s1 <= s2 ->
     exists a1 a2,
       effective_activity_mbq injected inj s1 tracer residual = Return a1 /\
       effective_activity_mbq injected inj s2 tracer residual = Return a2 /\
       a2 <= a1 /\
       (inj <= s1 -> s1 < s2 -> residual < injected -> a2 < a1)) /\
  (forall s, s <= inj ->
     effective_activity_mbq injected inj s tracer residual =
       Return (Rmax (injected - residual) 0)).
Proof.
  pose proof decay_constant_pos as Hlam.
  split.
  - intros s1 s2 Hs. rewrite !effective_activity_mbq_value.
    do 2 eexists. split; [reflexivity |]. split; [reflexivity |].
    set (lam := ln 2 / 109.77) in *.
    set (A0 := Rmax (injected - residual) 0.0).
    assert (HA : 0 <= A0) by (unfold A0, Rmax; destruct Rle_dec; lra).
    assert (Hdt : Rmax ((s1 - inj) / 60.0) 0.0 <= Rmax ((s2 - inj) / 60.0) 0.0).
    { unfold Rmax. repeat (destruct Rle_dec; try lra). }
    split.
    + apply Rmult_le_compat_l; [exact HA |]. apply exp_monotone. nra.
    + intros H1 H2 Hres.
      assert (HA' : 0 < A0) by (unfold A0, Rmax; destruct Rle_dec; lra).
      assert (Hdt' : Rmax ((s1 - inj) / 60.0) 0.0 < Rmax ((s2 - inj) / 60.0) 0.0).
      { unfold Rmax. repeat (destruct Rle_dec; try lra). }
      apply Rmult_lt_compat_l; [exact HA' |]. apply exp_increasing. nra.
  - intros s Hs. rewrite effective_activity_mbq_value.
    replace (Rmax ((s - inj) / 60.0) 0.0) with 0 by (unfold Rmax; destruct Rle_dec; lra).
    rewrite Rmult_0_r, exp_0. f_equal.
    replace 0.0 with 0 by lra. ring.
Qed.

Lemma effective_activity_mbq_decay_witness :
  (exists a1 a2,
     effective_activity_mbq 280 0 3600 "FDG" 0 = Return a1 /\
     effective_activity_mbq 280 0 7200 "FDG" 0 = Return a2 /\ a2 < a1) /\
  effective_activity_mbq 280 600 0 "FDG" 5 = Return (Rmax (280 - 5) 0).
Proof.
  destruct (effective_activity_mbq_decay 280 0 "FDG" 0) as [Hmono _].
  destruct (effective_activity_mbq_decay 280 600 "FDG" 5) as [_ Hclamp].
  split.
  - destruct (Hmono 3600 7200) as (a1 & a2 & E1 & E2 & _ & Hlt); [lra |].
    exists a1, a2. repeat split; [exact E1 | exact E2 | apply Hlt; lra].
  - apply Hclamp. lra.
Defined.

End Decay.

(** ** The BMI multiplier *)

Section BmiMultiplier.
Import Py PETPhysicsModel.
Local Open Scope R_scope.

(** The exponent of the tracer. *)
Lemma bmi_exponent_pos (tracer : string) :
  0 < (if String.eqb (tracer_key tracer) "FDG" then 0.6 else 0.4).
Proof. destruct (String.eqb (tracer_key tracer) "FDG"); lra. Qed.

(** The closed form of [bmi_multiplier] with its default reference and
    cap: it never raises. *)
Lemma bmi_multiplier_value (bmi : R) (tracer : string) :
  bmi_multiplier bmi tracer bmi_ref_default bmi_cap_default =
    Return (if Rle_dec (Rmin bmi 40) 22 then 1
            else Rpower (Rmin bmi 40 / 22)
                   (if String.eqb (tracer_key tracer) "FDG" then 0.6 else 0.4)).
Proof.
  unfold bmi_multiplier, bmi_ref_default, bmi_cap_default, leb.
  replace 40.0 with 40 by lra. replace 22.0 with 22 by lra.
  destruct (Rle_dec (Rmin bmi 40) 22) as [Hle | Hgt]; [f_equal; lra |].
  unfold div. destruct (Req_dec_T 22 0); [lra |]. cbn [bind].
  unfold pow. destruct (Rlt_dec 0 (Rmin bmi 40 / 22)) as [_ | Hneg]; [reflexivity |].
  exfalso. apply Hneg. apply Rdiv_lt_0_compat; lra.
Qed.

Lemma Rpower_ge_1 (x e : R) : 1 <= x -> 0 < e -> 1 <= Rpower x e.
Proof.
  intros Hx He.
  replace 1 with (Rpower 1 e) at 1.
  - apply Rle_Rpower_l; lra.
  - unfold Rpower. rewrite ln_1, Rmult_0_r. apply exp_0.
Qed.

(** C6: with the reference BMI 22 and the cap 40, [bmi_multiplier]
    returns exactly 1.0 at 22 and for every BMI at or below it, never
    decreases as the BMI grows, is constant from the cap on, and is at
    least 1.0 for every input. *)
Theorem bmi_multiplier_shape (tracer : string) :
  bmi_multiplier 22 tracer bmi_ref_default bmi_cap_default = Return 1 /\
  (forall bmi, bmi <= 22 ->
     bmi_multiplier bmi tracer bmi_ref_default bmi_cap_default = Return 1) /\
  (forall b1 b2, b1 <= b2 ->
     exists m1 m2,
       bmi_multiplier b1 tracer bmi_ref_default bmi_cap_default = Return m1 /\
       bmi_multiplier b2 tracer bmi_ref_default bmi_cap_default = Return m2 /\
       m1 <= m2) /\
  (forall bmi, 40 <= bmi ->
     bmi_multiplier bmi tracer bmi_ref_default bmi_cap_default =
     bmi_multiplier 40 tracer bmi_ref_default bmi_cap_default) /\
  (forall bmi, exists m,
     bmi_multiplier bmi tracer bmi_ref_default bmi_cap_default = Return m /\ 1 <= m).
Proof.
  pose proof (bmi_exponent_pos tracer) as He.
  assert (Hlow : forall bmi, bmi <= 22 ->
            bmi_multiplier bmi tracer bmi_ref_default bmi_cap_default = Return 1).
  { intros bmi Hb. rewrite bmi_multiplier_value.
    destruct (Rle_dec (Rmin bmi 40) 22) as [_ | Hgt]; [reflexivity |].
    exfalso. apply Hgt. pose proof (Rmin_l bmi 40). lra. }
  split; [apply Hlow; lra |]. split; [exact Hlow |]. split; [| split].
  - intros b1 b2 Hb. rewrite !bmi_multiplier_value.
    do 2 eexists. split; [reflexivity |]. split; [reflexivity |].
    assert (Hmin : Rmin b1 40 <= Rmin b2 40)
      by (unfold Rmin; repeat (destruct Rle_dec; try lra)).
    destruct (Rle_dec (Rmin b1 40) 22) as [H1 | H1];
      destruct (Rle_dec (Rmin b2 40) 22) as [H2 | H2]; try lra.
    + apply Rpower_ge_1; [| exact He].
      apply Rmult_le_reg_r with 22; [lra |].
      replace (Rmin b2 40 / 22 * 22) with (Rmin b2 40) by (field; lra). lra.
    + apply Rle_Rpower_l; [lra |]. split.
      * apply Rdiv_lt_0_compat; lra.
      * unfold Rdiv. apply Rmult_le_compat_r; lra.
  - intros bmi Hb. rewrite !bmi_multiplier_value.
    replace (Rmin bmi 40) with (Rmin 40 40); [reflexivity |].
    unfold Rmin. repeat (destruct Rle_dec; try lra).
  - intros bmi. rewrite bmi_multiplier_value. eexists. split; [reflexivity |].
    destruct (Rle_dec (Rmin bmi 40) 22) as [H1 | H1]; [lra |].
    apply Rpower_ge_1; [| exact He].
    apply Rmult_le_reg_r with 22; [lra |].
    replace (Rmin bmi 40 / 22 * 22) with (Rmin bmi 40) by (field; lra). lra.
Qed.

Lemma bmi_multiplier_shape_witness :
  bmi_multiplier 18.5 "FDG" bmi_ref_default bmi_cap_default = Return 1 /\
  bmi_multiplier 55 "FDG" bmi_ref_default bmi_cap_default =
  bmi_multiplier 40 "FDG" bmi_ref_default bmi_cap_default /\
  exists m1 m2,
    bmi_multiplier 25 "FDG" bmi_ref_default bmi_cap_default = Return m1 /\
    bmi_multiplier 31 "FDG" bmi_ref_default bmi_cap_default = Return m2 /\
    m1 <= m2.
Proof.
  destruct (bmi_multiplier_shape "FDG") as (_ & Hlow & Hmono & Hcap & _).
  split; [apply Hlow; lra |]. split; [apply Hcap; lra |]. apply Hmono. lra.
Defined.

End BmiMultiplier.

(** ** Tracer resolution *)

Section TracerKey.
Import Py PETPhysicsModel.
Local Open Scope string_scope.

Lemma append_cons (c : ascii) (a b : string) : String c a ++ b = String c (a ++ b).
Proof. reflexivity. Qed.

Lemma append_nil (b : string) : "" ++ b = b.
Proof. reflexivity. Qed.

Lemma prefix_app (needle hay : string) :
  String.prefix needle hay = true <-> exists post, hay = needle ++ post.
Proof.
  revert hay. induction needle as [| a needle IH]; intros hay.
  - destruct hay; cbn [String.prefix]; split; eauto.
  - destruct hay as [| b hay]; cbn [String.prefix].
    + split; [discriminate | intros [post H]; discriminate].
    + destruct (Ascii.ascii_dec a b) as [-> | Hne].
      * rewrite IH. split; intros [post H]; exists post;
          rewrite append_cons in *; congruence.
      * split; [discriminate |]. intros [post H].
        rewrite append_cons in H. congruence.
Qed.

Lemma contains_here (needle hay : string) :
  String.prefix needle hay = true -> exists pre post, hay = pre ++ needle ++ post.
Proof. intros E. apply prefix_app in E as [post E]. exists "", post. exact E. Qed.

Lemma contains_app (needle hay : string) :
  contains needle hay = true <-> exists pre post, hay = pre ++ needle ++ post.
Proof.
  induction hay as [| c hay IH].
  - cbn [contains]. destruct (String.prefix needle "") eqn:E.
    + split; [intros _; apply contains_here, E | reflexivity].
    + split; [discriminate |]. intros ([| c pre] & post & H).
      * rewrite append_nil in H.
        assert (String.prefix needle "" = true) by (apply prefix_app; eauto).
        congruence.
      * discriminate.
  - cbn [contains]. destruct (String.prefix needle (String c hay)) eqn:E.
    + split; [intros _; apply contains_here, E | reflexivity].
    + rewrite IH. split.
      * intros (pre & post & ->). exists (String c pre), post. reflexivity.
      * intros ([| c' pre] & post & H).
        -- rewrite append_nil in H.
           assert (String.prefix needle (String c hay) = true)
             by (apply prefix_app; eauto).
           congruence.
        -- rewrite append_cons in H. injection H as _ ->. eauto.
Qed.

Lemma upper_app (a b : string) : upper (a ++ b) = upper a ++ upper b.
Proof.
  induction a as [| c a IH]; [reflexivity |].
  rewrite append_cons. cbn [upper]. rewrite append_cons, IH. reflexivity.
Qed.

Lemma upper_split (l x y : string) :
  upper l = x ++ y -> exists l1 l2, l = l1 ++ l2 /\ upper l1 = x /\ upper l2 = y.
Proof.
  revert l. induction x as [| c x IH]; intros l H.
  - exists "", l. auto.
  - destruct l as [| d l]; [discriminate |].
    rewrite append_cons in H. cbn [upper] in H. injection H as Hc Hl.
    destruct (IH l Hl) as (l1 & l2 & -> & H1 & H2).
    exists (String d l1), l2. cbn [upper]. rewrite Hc, H1. auto.
Qed.

(** C7: [tracer_key] returns on every label, "PSMA" or "FDG"; it is
    "PSMA" exactly when the label has a substring that is "PSMA" once
    upper-cased, and "FDG" for every other label. *)
Theorem tracer_key_total :
  (forall label, tracer_key label = "PSMA" \/ tracer_key label = "FDG") /\
  (forall label,
     tracer_key label = "PSMA" <->
     exists pre mid post, label = pre ++ mid ++ post /\ upper mid = "PSMA") /\
  (forall label,
     tracer_key label = "FDG" <->
     ~ exists pre mid post, label = pre ++ mid ++ post /\ upper mid = "PSMA") /\
  tracer_key "f-18 psma-1007" = "PSMA" /\
  tracer_key "FDG" = "FDG" /\
  tracer_key "unknown" = "FDG".
Proof.
  assert (Hsub : forall label,
            contains "PSMA" (upper label) = true <->
            exists pre mid post, label = pre ++ mid ++ post /\ upper mid = "PSMA").
  { intros label. rewrite contains_app. split.
    - intros (pre & post & H).
      apply upper_split in H as (l1 & l2 & -> & _ & H).
      apply upper_split in H as (l3 & l4 & -> & H & _).
      exists l1, l3, l4. auto.
    - intros (pre & mid & post & -> & H).
      exists (upper pre), (upper post). rewrite !upper_app, H. reflexivity. }
  split; [| split; [| split; [| repeat split]]].
  - intros label. unfold tracer_key. destruct (contains "PSMA" (upper label)); auto.
  - intros label. rewrite <- Hsub. unfold tracer_key.
    destruct (contains "PSMA" (upper label)); split; congruence.
  - intros label. rewrite <- Hsub. unfold tracer_key.
    destruct (contains "PSMA" (upper label)); split; congruence.
Qed.

Lemma tracer_key_total_witness : tracer_key "Ga-68 Psma-11" = "PSMA".
Proof.
  destruct tracer_key_total as (_ & Hpsma & _).
  apply Hpsma. exists "Ga-68 ", "Psma", "-11". split; reflexivity.
Defined.

End TracerKey.

(** ** Persistence failures of the store *)

Section PersistenceFailures.
Import Py KFactorStore.

Context {world : Type}.
Context (path_exists : world -> outcome bool).
Context (read_text : world -> outcome string).
Context (write_text : string -> world -> world * outcome unit).
Context (json_loads : string -> outcome json).
Context (json_dumps : json -> outcome string).

Local Abbreviation load := (load_store world path_exists read_text json_loads).
Local Abbreviation save := (save_store world write_text json_dumps).
Local Abbreviation add := (add_k_measurement world write_text json_dumps).
Local Abbreviation site_summary_of :=
  (get_site_k_summary world path_exists read_text json_loads).

Lemma save_store_returns (store : json) (w : world) :
  snd (save store w) = Return tt.
Proof.
  unfold save_store. destruct (json_dumps store) as [text | e]; [| reflexivity].
  destruct (write_text text w) as [w' [[] | e]]; reflexivity.
Qed.

Lemma add_k_measurement_returns store tracer profile k (w : world) :
  snd (add store tracer profile k w) =
    Return (<[store_key tracer profile :=
              default [] (store !! store_key tracer profile) ++ [float k]]> store).
Proof.
  unfold add_k_measurement.
  pose proof (save_store_returns
    (store_json (<[store_key tracer profile :=
       default [] (store !! store_key tracer profile) ++ [float k]]> store)) w) as H.
  destruct (save _ w) as [w' r]. cbn in H. subst r. reflexivity.
Qed.

(** What [load_store] gives once the existence test has returned. *)
Lemma load_store_cases (w : world) :
  (path_exists w = Return false -> load w = Return (JObj ∅)) /\
  (forall e, path_exists w = Return true -> read_text w = Raise e ->
             load w = Return (JObj ∅)) /\
  (forall text e, path_exists w = Return true -> read_text w = Return text ->
                  json_loads text = Raise e -> load w = Return (JObj ∅)) /\
  (forall text data, path_exists w = Return true -> read_text w = Return text ->
                     json_loads text = Return data -> load w = Return data) /\
  (forall e, path_exists w = Raise e -> load w = Raise e).
Proof.
  unfold load_store. repeat apply conj.
  - intros ->. reflexivity.
  - intros e -> ->. reflexivity.
  - intros text e -> -> H. cbn [bind try_except]. rewrite H. reflexivity.
  - intros text data -> -> H. cbn [bind try_except]. rewrite H. reflexivity.
  - intros e ->. reflexivity.
Qed.


End PersistenceFailures.



(** ** The summary of the stored measurements *)

Section Summary.
Import Py KFactorStore.
Local Open Scope Q_scope.

Lemma insert_sorted_perm (x : Q) (l : list Q) : Permutation (insert_sorted x l) (x :: l).
Proof.
  induction l as [| y l IH]; cbn [insert_sorted]; [reflexivity |].
  destruct (Qle_bool x y); [reflexivity |].
  rewrite IH. apply perm_swap.
Qed.

Lemma insert_sorted_hd (x y : Q) (l : list Q) :
  y <= x -> HdRel Qle y l -> HdRel Qle y (insert_sorted x l).
Proof.
  intros Hyx Hl. destruct l as [| z l]; cbn [insert_sorted].
  - constructor. exact Hyx.
  - destruct (Qle_bool x z); constructor; [exact Hyx |].
    inversion Hl; assumption.
Qed.

Lemma insert_sorted_sorted (x : Q) (l : list Q) :
  Sorted Qle l -> Sorted Qle (insert_sorted x l).
Proof.
  induction 1 as [| y l Hs IH Hhd]; cbn [insert_sorted].
  - repeat constructor.
  - destruct (Qle_bool x y) eqn:E.
    + apply Qle_bool_iff in E. repeat constructor; assumption.
    + constructor; [exact IH |]. apply insert_sorted_hd; [| exact Hhd].
      apply Qlt_le_weak, Qnot_le_lt. intros Hle.
      apply Qle_bool_iff in Hle. congruence.
Qed.

(** [np_sort] gives the sample in ascending order. *)
Lemma np_sort_sorted (l : list Q) : Sorted Qle (np_sort l).
Proof.
  induction l as [| x l IH]; cbn; [constructor | apply insert_sorted_sorted, IH].
Qed.

Lemma np_sort_perm (l : list Q) : Permutation (np_sort l) l.
Proof.
  induction l as [| x l IH]; cbn; [reflexivity |].
  rewrite insert_sorted_perm, IH. reflexivity.
Qed.

Lemma summarize_k_value (store : gmap string (list Q)) (tracer profile : string) (vals : list Q) :
  store !! store_key tracer profile = Some vals -> vals <> [] ->
  summarize_k store tracer profile =
    Some (float (np_median vals), float (np_percentile vals 25),
          float (np_percentile vals 75), List.length vals).
Proof.
  intros H Hne. unfold summarize_k. rewrite H. cbn [default].
  destruct vals; [contradiction | reflexivity].
Qed.

(** C9: [summarize_k] returns [None] exactly when the key
    "{tracer}_{recon_profile}" is missing or holds no value; otherwise
    it returns the median, the 25th and the 75th percentile of all the
    values of the key, read on their sorted sequence, and their number;
    after one [add_k_measurement] of 5.0 on an empty key it returns
    (5.0, 5.0, 5.0, 1). *)
Theorem summarize_k_order_statistics :
  (forall store tracer profile,
     summarize_k store tracer profile = None <->
     store !! store_key tracer profile = None \/
     store !! store_key tracer profile = Some []) /\
  (forall store tracer profile vals,
     store !! store_key tracer profile = Some vals -> vals <> [] ->
     summarize_k store tracer profile =
       Some (float (np_median vals), float (np_percentile vals 25),
             float (np_percentile vals 75), List.length vals)) /\
  (forall vals, Sorted Qle (np_sort vals) /\ Permutation (np_sort vals) vals) /\
  (forall (world : Type) write_text json_dumps store tracer profile (w : world),
     store !! store_key tracer profile = None \/
     store !! store_key tracer profile = Some [] ->
     exists w' store',
       add_k_measurement world write_text json_dumps store tracer profile 5 w
         = (w', Return store') /\
       summarize_k store' tracer profile = Some (5, 5, 5, 1%nat)).
Proof.
  repeat apply conj.
  - intros store tracer profile. unfold summarize_k.
    destruct (store !! store_key tracer profile) as [[| x vals] |]; cbn [default];
      split; intros H; try discriminate; auto; destruct H; discriminate.
  - apply summarize_k_value.
  - intros vals. split; [apply np_sort_sorted | apply np_sort_perm].
  - intros world write_text json_dumps store tracer profile w Hempty.
    pose proof (add_k_measurement_returns write_text json_dumps store tracer profile 5 w)
      as Hadd.
    destruct (add_k_measurement world write_text json_dumps store tracer profile 5 w)
      as [w' r]. cbn [snd] in Hadd. subst r.
    do 2 eexists. split; [reflexivity |].
    rewrite (summarize_k_value _ _ _ [float 5]).
    + vm_compute. reflexivity.
    + rewrite lookup_insert_eq. destruct Hempty as [-> | ->]; reflexivity.
    + discriminate.
Qed.

Lemma summarize_k_order_statistics_witness :
  summarize_k {["FDG_EARL"%string := [3; 1; 2]]} "FDG" "EARL" = Some (2, 3 # 2, 5 # 2, 3%nat) /\
  summarize_k (∅ : gmap string (list Q)) "FDG" "EARL" = None.
Proof.
  destruct summarize_k_order_statistics as (Hnone & Hsome & _ & _).
  split.
  - rewrite (Hsome _ "FDG"%string "EARL"%string [3; 1; 2]).
    + vm_compute. reflexivity.
    + apply lookup_singleton_eq.
    + discriminate.
  - apply Hnone. left. apply lookup_empty.
Defined.

End Summary.

(** * Further properties of the physics model *)

(** ** Reconstruction gain and the failure of the solvers *)

Section ReconGain.
Import Py PETPhysicsModel Policy.
Local Open Scope R_scope.

Lemma recon_gain_val_pos (profile : string) (custom_gain : option R) :
  0 < recon_gain_val profile custom_gain.
Proof.
  assert (Htab : 0 < gain (dict_get RECON_PROFILES profile {| gain := 1.6; note := None |})).
  { unfold dict_get, RECON_PROFILES, dict_lookup.
    destruct (String.eqb profile "EARL"); [cbn; lra |].
    destruct (String.eqb profile "OSEM_TOF"); [cbn; lra |].
    destruct (String.eqb profile "HD_PET"); cbn; lra. }
  unfold recon_gain_val. destruct custom_gain as [g |]; [| exact Htab].
  destruct (ltb 0 g) eqn:E; [apply ltb_lt in E; exact E | exact Htab].
Qed.

(** A custom gain that is positive overrides the profile; a missing or
    non-positive one falls back to the gain of the profile, which is
    1.0, 1.25 or 1.6, and 1.6 for a profile that is not in the table;
    so the gain is positive in every case. *)
Theorem recon_gain_val_positive (profile : string) (custom_gain : option R) :
  0 < recon_gain_val profile custom_gain /\
  (forall g, custom_gain = Some g -> 0 < g -> recon_gain_val profile custom_gain = g) /\
  (forall g, custom_gain = Some g -> g <= 0 ->
     recon_gain_val profile custom_gain = recon_gain_val profile None) /\
  (recon_gain_val profile None = 1.0 \/ recon_gain_val profile None = 1.25 \/
   recon_gain_val profile None = 1.6) /\
  (dict_lookup RECON_PROFILES profile = None -> recon_gain_val profile None = 1.6).
Proof.
  pose proof (recon_gain_val_pos profile custom_gain) as Hpos.
  repeat apply conj.
  - exact Hpos.
  - intros g -> Hg. unfold recon_gain_val.
    rewrite (proj2 (ltb_lt 0 g)) by exact Hg. reflexivity.
  - intros g -> Hg. unfold recon_gain_val.
    rewrite (proj2 (ltb_ge 0 g)) by exact Hg. reflexivity.
  - unfold recon_gain_val, dict_get, RECON_PROFILES, dict_lookup.
    destruct (String.eqb profile "EARL"); [left; reflexivity |].
    destruct (String.eqb profile "OSEM_TOF"); [right; left; reflexivity |].
    destruct (String.eqb profile "HD_PET"); right; right; reflexivity.
  - intros H. unfold recon_gain_val, dict_get. rewrite H. reflexivity.
Qed.

Lemma recon_gain_val_positive_witness :
  recon_gain_val "HD_PET" (Some 2.5) = 2.5 /\
  recon_gain_val "HD_PET" (Some 0) = recon_gain_val "HD_PET" None /\
  recon_gain_val "unknown" None = 1.6.
Proof.
  destruct (recon_gain_val_positive "HD_PET" (Some 2.5)) as (_ & H1 & _).
  destruct (recon_gain_val_positive "HD_PET" (Some 0)) as (_ & _ & H2 & _).
  destruct (recon_gain_val_positive "unknown" None) as (_ & _ & _ & _ & H3).
  split; [apply (H1 2.5); [reflexivity | lra] |].
  split; [apply (H2 0); [reflexivity | lra] |].
  apply H3. reflexivity.
Defined.


End ReconGain.

(** ** What the solvers report *)

Section SolverReports.
Import Py PETPhysicsModel Policy.
Local Open Scope R_scope.

Lemma policy_bounds (raw range : R) :
  let v := round1 (Rmax 0.5 (Rmin raw 50.0)) in
  263 / 50 <= AXFOV_MM / v <= 526 /\
  (0 <= range -> range / 3000 <= range / v / 60.0 <= range / 30).
Proof.
  intros v. pose proof (velocity_bounds raw) as Hv. fold v in Hv.
  unfold AXFOV_MM. split.
  - split.
    + replace (263 / 50) with (263.0 / 50.0) by lra. apply div_antitone; lra.
    + replace 526 with (263.0 / 0.5) by lra. apply div_antitone; lra.
  - intros Hr.
    assert (H1 : range / 50.0 <= range / v) by (apply div_antitone; lra).
    assert (H2 : range / v <= range / 0.5) by (apply div_antitone; lra).
    lra.
Qed.

(** Whatever the inputs, the dwell time a solver reports lies between
    5.26 s and 526 s (the velocity bounds seen from the dwell), and the
    scan time in minutes is the scan range over the velocity over 60,
    between range/3000 and range/30 for a range that is not negative. *)
Theorem solvers_dwell_and_scan_time :
  (forall A k g snr mult range tracer ped w h,
     g <> 0 ->
     exists v t m s c ok,
       solve_standard A k g snr mult range tracer ped w h = Return (v, t, m, s, c, ok) /\
       263 / 50 <= t <= 526 /\ m = range / v / 60 /\
       (0 <= range -> range / 3000 <= m <= range / 30)) /\
  (forall dpk w k g snr mult range tracer ped h,
     g <> 0 ->
     exists A v t m s c ok,
       solve_lowdose dpk w k g snr mult range tracer ped h = Return (A, v, t, m, s, c, ok) /\
       263 / 50 <= t <= 526 /\ m = range / v / 60 /\
       (0 <= range -> range / 3000 <= m <= range / 30)) /\
  (forall A k g mult t_ref range tracer ped w h,
     exists v t m s c,
       solve_fast A k g mult t_ref range tracer ped w h = (v, t, m, s, c) /\
       263 / 50 <= t <= 526 /\ m = range / v / 60 /\
       (0 <= range -> range / 3000 <= m <= range / 30)).
Proof.
  repeat apply conj.
  - intros A k g snr mult range tracer ped w h Hg.
    unfold solve_standard. rewrite snr_ratio_returns by exact Hg. cbn [bind].
    do 6 eexists. split; [reflexivity |].
    match goal with |- context [round1 (Rmax 0.5 (Rmin ?raw 50.0))] =>
      destruct (policy_bounds raw range) as [Ht Hm] end.
    split; [exact Ht |]. split; [f_equal; lra | exact Hm].
  - intros dpk w k g snr mult range tracer ped h Hg.
    unfold solve_lowdose. rewrite snr_ratio_returns by exact Hg. cbn [bind].
    do 7 eexists. split; [reflexivity |].
    match goal with |- context [round1 (Rmax 0.5 (Rmin ?raw 50.0))] =>
      destruct (policy_bounds raw range) as [Ht Hm] end.
    split; [exact Ht |]. split; [f_equal; lra | exact Hm].
  - intros A k g mult t_ref range tracer ped w h.
    unfold solve_fast. do 5 eexists. split; [reflexivity |].
    match goal with |- context [round1 (Rmax 0.5 (Rmin ?raw 50.0))] =>
      destruct (policy_bounds raw range) as [Ht Hm] end.
    split; [exact Ht |]. split; [f_equal; lra | exact Hm].
Qed.

Lemma solvers_dwell_and_scan_time_witness :
  exists v t m s c ok,
    solve_standard 280 1 1.6 12 1 1050 "FDG" false None None = Return (v, t, m, s, c, ok) /\
    263 / 50 <= t <= 526 /\ m = 1050 / v / 60 /\ 1050 / 3000 <= m <= 1050 / 30.
Proof.
  destruct solvers_dwell_and_scan_time as (Hstd & _ & _).
  destruct (Hstd 280 1 1.6 12 1 1050 "FDG"%string false None None)
    as (v & t & m & s & c & ok & E & Ht & Hm & Hr); [lra |].
  exists v, t, m, s, c, ok. repeat split; try tauto; apply Hr; lra.
Defined.

(** The full scan-time ceiling of every age group survives the
    rounding of the velocity. *)
Lemma ceiling_survives (t w : R) :
  let cap := get_pediatric_scan_time_limit w in
  let v := round1 (Rmax 0.5 (Rmin (AXFOV_MM / Rmax (Rmin t cap) 1e-6) 50.0)) in
  AXFOV_MM / v <= cap.
Proof.
  intros cap v.
  assert (Hcap : Rmin t cap <= cap) by apply Rmin_r.
  assert (Hc : cap = get_pediatric_scan_time_limit w) by reflexivity.
  clearbody cap.
  destruct (pediatric_tables_view w)
    as [[H [_ E]] | [[H [_ E]] | [[H [_ E]] | [[H [_ E]] | [[H [_ E]] | [H [_ E]]]]]]];
    rewrite E in Hc; clear E; rename Hc into E.
  - apply (dwell_within_cap (Rmin t cap) cap 15); unfold AXFOV_MM; try lra; rewrite E; lra.
  - apply (dwell_within_cap (Rmin t cap) cap 88); unfold AXFOV_MM; try lra; rewrite E; lra.
  - apply (dwell_within_cap (Rmin t cap) cap 44); unfold AXFOV_MM; try lra; rewrite E; lra.
  - apply (dwell_within_cap (Rmin t cap) cap 22); unfold AXFOV_MM; try lra; rewrite E; lra.
  - apply (dwell_within_cap (Rmin t cap) cap 15); unfold AXFOV_MM; try lra; rewrite E; lra.
  - apply (dwell_within_cap (Rmin t cap) cap 11); unfold AXFOV_MM; try lra; rewrite E; lra.
Qed.

(** For a pediatric call, [solve_standard] with a weight and
    [solve_lowdose] report a dwell time that is at most the scan-time
    ceiling of the weight: each of the ceilings 30, 60, 120, 180 and
    240 s is a dwell whose velocity rounds upwards. *)
Theorem pediatric_ceiling_holds_after_rounding :
  (forall A k g snr mult range tracer w h,
     g <> 0 ->
     exists v t m s c ok,
       solve_standard A k g snr mult range tracer true (Some w) h
         = Return (v, t, m, s, c, ok) /\
       t <= get_pediatric_scan_time_limit w) /\
  (forall dpk w k g snr mult range tracer h,
     g <> 0 ->
     exists A v t m s c ok,
       solve_lowdose dpk w k g snr mult range tracer true h
         = Return (A, v, t, m, s, c, ok) /\
       t <= get_pediatric_scan_time_limit w).
Proof.
  split.
  - intros A k g snr mult range tracer w h Hg.
    unfold solve_standard. rewrite snr_ratio_returns by exact Hg. cbn [bind].
    do 6 eexists. split; [reflexivity |]. apply ceiling_survives.
  - intros dpk w k g snr mult range tracer h Hg.
    unfold solve_lowdose. rewrite snr_ratio_returns by exact Hg. cbn [bind].
    do 7 eexists. split; [reflexivity |]. apply ceiling_survives.
Qed.

Lemma pediatric_ceiling_holds_after_rounding_witness :
  exists A v t m s c ok,
    solve_lowdose 2.5 30 1e-4 1.6 8 1 1050 "FDG" true None = Return (A, v, t, m, s, c, ok) /\
    t <= get_pediatric_scan_time_limit 30.
Proof.
  destruct pediatric_ceiling_holds_after_rounding as [_ Hlow].
  apply Hlow. lra.
Defined.

End SolverReports.

(** ** Predicted SNR, COV and the flags *)

Section SnrCov.
Import Py PETPhysicsModel Policy.
Local Open Scope R_scope.

Lemma sqrt_floor_pos (nec : R) : 0 < sqrt (Rmax nec 1e-9).
Proof. apply sqrt_lt_R0. unfold Rmax. destruct Rle_dec; lra. Qed.

(** The COV expression of the three solvers. *)
Lemma cov_pred_cases (k nec g : R) :
  let s := k * calculate_snr_from_nec nec g in
  let c := if ltb 0 s then Some (1.0 / s) else None in
  (0 < s <-> 0 < k * g) /\
  (c = None <-> k * g <= 0) /\
  (forall x, c = Some x -> x * s = 1).
Proof.
  intros s c. pose proof (sqrt_floor_pos nec) as Hq.
  assert (Hs : s = sqrt (Rmax nec 1e-9) * (k * g))
    by (unfold s, calculate_snr_from_nec; ring).
  assert (Hiff : 0 < s <-> 0 < k * g).
  { rewrite Hs. split; intros H.
    - apply Rmult_lt_reg_l with (sqrt (Rmax nec 1e-9)); [exact Hq |]. lra.
    - apply Rmult_lt_0_compat; assumption. }
  split; [exact Hiff |]. unfold c. destruct (ltb 0 s) eqn:E.
  - apply ltb_lt in E. split.
    + split; [discriminate |]. intros H. apply Hiff in E. lra.
    + intros x Hx. injection Hx as <-. replace 1.0 with 1 by lra. field. lra.
  - apply ltb_ge in E. split.
    + split; [| reflexivity]. intros _.
      destruct (Rle_dec (k * g) 0) as [H | H]; [exact H |].
      exfalso. assert (0 < s) by (apply Hiff; lra). lra.
    + intros x Hx. discriminate.
Qed.

(** The predicted SNR of a solver is positive exactly when k times the
    gain is positive; the COV is then its inverse, and it is NaN exactly
    when k times the gain is zero or negative. *)
Theorem cov_is_inverse_snr_or_nan :
  (forall A k g snr mult range tracer ped w h,
     g <> 0 ->
     exists v t m s c ok,
       solve_standard A k g snr mult range tracer ped w h = Return (v, t, m, s, c, ok) /\
       (0 < s <-> 0 < k * g) /\ (c = None <-> k * g <= 0) /\
       (forall x, c = Some x -> x * s = 1)) /\
  (forall dpk w k g snr mult range tracer ped h,
     g <> 0 ->
     exists A v t m s c ok,
       solve_lowdose dpk w k g snr mult range tracer ped h = Return (A, v, t, m, s, c, ok) /\
       (0 < s <-> 0 < k * g) /\ (c = None <-> k * g <= 0) /\
       (forall x, c = Some x -> x * s = 1)) /\
  (forall A k g mult t_ref range tracer ped w h,
     exists v t m s c,
       solve_fast A k g mult t_ref range tracer ped w h = (v, t, m, s, c) /\
       (0 < s <-> 0 < k * g) /\ (c = None <-> k * g <= 0) /\
       (forall x, c = Some x -> x * s = 1)).
Proof.
  repeat apply conj.
  - intros A k g snr mult range tracer ped w h Hg.
    unfold solve_standard. rewrite snr_ratio_returns by exact Hg. cbn [bind].
    do 6 eexists. split; [reflexivity |]. apply cov_pred_cases.
  - intros dpk w k g snr mult range tracer ped h Hg.
    unfold solve_lowdose. rewrite snr_ratio_returns by exact Hg. cbn [bind].
    do 7 eexists. split; [reflexivity |]. apply cov_pred_cases.
  - intros A k g mult t_ref range tracer ped w h.
    unfold solve_fast. do 5 eexists. split; [reflexivity |]. apply cov_pred_cases.
Qed.

Lemma cov_is_inverse_snr_or_nan_witness :
  exists v t m s c ok,
    solve_standard 280 (-1) 1.6 12 1 1050 "FDG" false None None = Return (v, t, m, s, c, ok) /\
    c = None.
Proof.
  destruct cov_is_inverse_snr_or_nan as (Hstd & _ & _).
  destruct (Hstd 280 (-1) 1.6 12 1 1050 "FDG"%string false None None)
    as (v & t & m & s & c & ok & E & _ & Hnan & _); [lra |].
  exists v, t, m, s, c, ok. split; [exact E |]. apply Hnan. lra.
Defined.

(** A velocity of the policy is 0.5 or at least 0.6. *)
Lemma velocity_floor_or_above (d v t : R) :
  velocity_policy d v t -> v = 0.5 \/ 0.6 <= v.
Proof.
  intros (_ & [Hlo _] & [n Hn] & _).
  destruct (Z_le_gt_dec n 5) as [H5 | H5].
  - left. apply IZR_le in H5. lra.
  - right. assert (H6 : (6 <= n)%Z) by lia. apply IZR_le in H6. lra.
Qed.

(** The flag of [solve_lowdose] is false exactly when the velocity is
    the floor 0.5 mm/s: the margin 1e-6 of the test never matters,
    since a rounded velocity above the floor is at least 0.6. *)
Theorem solve_lowdose_flag_is_floor_test dpk w k g snr mult range tracer ped h :
  g <> 0 ->
  exists A v t m s c ok,
    solve_lowdose dpk w k g snr mult range tracer ped h = Return (A, v, t, m, s, c, ok) /\
    (ok = false <-> v = 0.5) /\ (ok = true <-> 0.6 <= v).
Proof.
  intros Hg.
  destruct (solve_lowdose_policy dpk w k g snr mult range tracer ped h Hg)
    as (A & v & t & m & s & c & ok & E & _ & Hpol).
  exists A, v, t, m, s, c, ok. split; [exact E |].
  assert (Hok : ok = ltb (0.5 + 1e-6) v).
  { revert E. unfold solve_lowdose. rewrite snr_ratio_returns by exact Hg. cbn [bind].
    intros E. injection E as _ <- _ _ _ _ <-. reflexivity. }
  rewrite Hok.
  destruct (velocity_floor_or_above _ v t Hpol) as [H5 | H6].
  - rewrite (proj2 (ltb_ge (0.5 + 1e-6) v)) by lra.
    split; split; intros H; try reflexivity; try discriminate; lra.
  - rewrite (proj2 (ltb_lt (0.5 + 1e-6) v)) by lra.
    split; split; intros H; try reflexivity; try discriminate; lra.
Qed.

Lemma solve_lowdose_flag_is_floor_test_witness :
  exists A v t m s c ok,
    solve_lowdose 2.5 70 1e-4 1.6 12 1 1050 "FDG" false None = Return (A, v, t, m, s, c, ok) /\
    (ok = false <-> v = 0.5) /\ (ok = true <-> 0.6 <= v).
Proof. apply solve_lowdose_flag_is_floor_test. lra. Defined.

(** The sensitivity and the half-life are the same for both tracers, so
    no solver, nor the NEC, the decay correction or the calibration,
    depends on the tracer label. *)
Theorem tracer_label_is_irrelevant (tracer1 tracer2 : string) :
  (forall A k g snr mult range ped w h,
     solve_standard A k g snr mult range tracer1 ped w h =
     solve_standard A k g snr mult range tracer2 ped w h) /\
  (forall dpk w k g snr mult range ped h,
     solve_lowdose dpk w k g snr mult range tracer1 ped h =
     solve_lowdose dpk w k g snr mult range tracer2 ped h) /\
  (forall A k g mult t_ref range ped w h,
     solve_fast A k g mult t_ref range tracer1 ped w h =
     solve_fast A k g mult t_ref range tracer2 ped w h) /\
  (forall A t, calculate_nec A t tracer1 = calculate_nec A t tracer2) /\
  (forall injected inj start residual,
     effective_activity_mbq injected inj start tracer1 residual =
     effective_activity_mbq injected inj start tracer2 residual) /\
  (forall t_ref A_ref g snr_ref w h,
     calibrate_k_from_reference t_ref A_ref g snr_ref tracer1 w h =
     calibrate_k_from_reference t_ref A_ref g snr_ref tracer2 w h).
Proof.
  repeat apply conj; intros.
  - unfold solve_standard, calculate_nec. rewrite !get_system_sensitivity_value. reflexivity.
  - unfold solve_lowdose, calculate_nec. rewrite !get_system_sensitivity_value. reflexivity.
  - unfold solve_fast, calculate_nec. rewrite !get_system_sensitivity_value. reflexivity.
  - unfold calculate_nec. rewrite !get_system_sensitivity_value. reflexivity.
  - rewrite !effective_activity_mbq_value. reflexivity.
  - unfold calibrate_k_from_reference. rewrite !get_system_sensitivity_value. reflexivity.
Qed.

End SnrCov.

(** ** Monotonicity of the solvers *)

Section SolverMonotone.
Import Py PETPhysicsModel Policy.
Local Open Scope R_scope.

Lemma dose_factor_range (w : R) : 0.02 <= get_pediatric_dose_factor w <= 1.
Proof.
  destruct (pediatric_tables_view w)
    as [[_ [E _]] | [[_ [E _]] | [[_ [E _]] | [[_ [E _]] | [[_ [E _]] | [_ [E _]]]]]]];
    rewrite E; lra.
Qed.

(** A longer dwell before rounding never gives a faster bed. *)
Lemma velocity_antitone (d1 d2 : R) :
  d1 <= d2 ->
  round1 (Rmax 0.5 (Rmin (AXFOV_MM / Rmax d2 1e-6) 50.0)) <=
  round1 (Rmax 0.5 (Rmin (AXFOV_MM / Rmax d1 1e-6) 50.0)).
Proof.
  intros Hd. apply round1_mono.
  assert (Hm : 0 < Rmax d1 1e-6 <= Rmax d2 1e-6)
    by (unfold Rmax; repeat (destruct Rle_dec; try lra)).
  assert (Hq : AXFOV_MM / Rmax d2 1e-6 <= AXFOV_MM / Rmax d1 1e-6)
    by (apply div_antitone; unfold AXFOV_MM; lra).
  unfold Rmax at 1 3. unfold Rmin. repeat (destruct Rle_dec; try lra).
Qed.

Lemma dwell_monotone (v1 v2 : R) :
  0.5 <= v2 -> v2 <= v1 -> AXFOV_MM / v1 <= AXFOV_MM / v2.
Proof. intros H1 H2. apply div_antitone; unfold AXFOV_MM; lra. Qed.

(** With a BMI multiplier that is not negative, a longer fast
    reference dwell never gives [solve_fast] a faster bed nor a shorter
    reported dwell, for adult and pediatric calls alike. *)
Theorem solve_fast_monotone_in_reference A k g mult t_ref1 t_ref2 range tracer ped w h :
  0 <= mult -> t_ref1 <= t_ref2 ->
  exists v1 t1 m1 s1 c1 v2 t2 m2 s2 c2,
    solve_fast A k g mult t_ref1 range tracer ped w h = (v1, t1, m1, s1, c1) /\
    solve_fast A k g mult t_ref2 range tracer ped w h = (v2, t2, m2, s2, c2) /\
    v2 <= v1 /\ t1 <= t2.
Proof.
  intros Hmult Href. unfold solve_fast.
  do 10 eexists. split; [reflexivity |]. split; [reflexivity |].
  assert (Hbase : t_ref1 * mult <= t_ref2 * mult) by nra.
  match goal with
  | |- round1 (Rmax 0.5 (Rmin (AXFOV_MM / Rmax ?d2 1e-6) 50.0)) <=
       round1 (Rmax 0.5 (Rmin (AXFOV_MM / Rmax ?d1 1e-6) 50.0)) /\ _ =>
      assert (Hd : d1 <= d2)
  end.
  { destruct ped; [| exact Hbase]. destruct w as [w |]; [| exact Hbase].
    pose proof (dose_factor_range w) as Hdf.
    set (red := 0.5 + 0.3 * (get_pediatric_dose_factor w / 0.15)).
    assert (Hred : 0 < red) by (unfold red; lra).
    assert (Hscaled : t_ref1 * mult * red <= t_ref2 * mult * red) by nra.
    unfold Rmin. repeat (destruct Rle_dec; try lra). }
  pose proof (velocity_antitone _ _ Hd) as Hv.
  split; [exact Hv |]. apply dwell_monotone; [apply velocity_bounds | exact Hv].
Qed.

Lemma solve_fast_monotone_in_reference_witness :
  exists v1 t1 m1 s1 c1 v2 t2 m2 s2 c2,
    solve_fast 280 1e-4 1.6 1 120 1050 "FDG" true (Some 20) None = (v1, t1, m1, s1, c1) /\
    solve_fast 280 1e-4 1.6 1 150 1050 "FDG" true (Some 20) None = (v2, t2, m2, s2, c2) /\
    v2 <= v1 /\ t1 <= t2.
Proof. apply solve_fast_monotone_in_reference; lra. Defined.

(** With a BMI multiplier that is not negative, more effective activity
    never gives [solve_standard] a slower bed nor a longer reported
    dwell. *)
Theorem solve_standard_monotone_in_activity A1 A2 k g snr mult range tracer ped w h :
  g <> 0 -> 0 <= mult -> A1 <= A2 ->
  exists v1 t1 m1 s1 c1 ok1 v2 t2 m2 s2 c2 ok2,
    solve_standard A1 k g snr mult range tracer ped w h = Return (v1, t1, m1, s1, c1, ok1) /\
    solve_standard A2 k g snr mult range tracer ped w h = Return (v2, t2, m2, s2, c2, ok2) /\
    v1 <= v2 /\ t2 <= t1.
Proof.
  intros Hg Hmult HA. unfold solve_standard.
  rewrite snr_ratio_returns by exact Hg. cbn [bind].
  do 12 eexists. split; [reflexivity |]. split; [reflexivity |].
  rewrite !get_system_sensitivity_value.
  set (q := snr / (Rmax k 1e-9 * g)).
  assert (Hq : 0 <= q ^ 2) by (simpl; nra).
  assert (Hden : 0 < Rmax (A1 * 9100) 1e-6 <= Rmax (A2 * 9100) 1e-6)
    by (unfold Rmax; repeat (destruct Rle_dec; try lra)).
  assert (Hraw : q ^ 2 / Rmax (A2 * 9100) 1e-6 <= q ^ 2 / Rmax (A1 * 9100) 1e-6)
    by (apply div_antitone; lra).
  assert (Hbase : q ^ 2 / Rmax (A2 * 9100) 1e-6 * mult <=
                  q ^ 2 / Rmax (A1 * 9100) 1e-6 * mult)
    by (apply Rmult_le_compat_r; lra).
  match goal with
  | |- round1 (Rmax 0.5 (Rmin (AXFOV_MM / Rmax ?d1 1e-6) 50.0)) <=
       round1 (Rmax 0.5 (Rmin (AXFOV_MM / Rmax ?d2 1e-6) 50.0)) /\ _ =>
      assert (Hd : d2 <= d1)
  end.
  { destruct ped; [| exact Hbase]. destruct w as [w |]; [| exact Hbase].
    unfold Rmin. repeat (destruct Rle_dec; try lra). }
  pose proof (velocity_antitone _ _ Hd) as Hv.
  split; [exact Hv |]. apply dwell_monotone; [apply velocity_bounds | exact Hv].
Qed.

Lemma solve_standard_monotone_in_activity_witness :
  exists v1 t1 m1 s1 c1 ok1 v2 t2 m2 s2 c2 ok2,
    solve_standard 150 1e-4 1.6 12 1 1050 "FDG" false None None
      = Return (v1, t1, m1, s1, c1, ok1) /\
    solve_standard 280 1e-4 1.6 12 1 1050 "FDG" false None None
      = Return (v2, t2, m2, s2, c2, ok2) /\
    v1 <= v2 /\ t2 <= t1.
Proof. apply solve_standard_monotone_in_activity; lra. Defined.

(** The activity [solve_lowdose] plans for a pediatric call is the adult
    one times the dose factor of the weight, so it is never more than
    the adult one when dose per kg and weight are not negative. *)
Theorem solve_lowdose_pediatric_activity dpk w k g snr mult range tracer h :
  g <> 0 -> 0 <= dpk -> 0 <= w ->
  exists A v t m s c ok A' v' t' m' s' c' ok',
    solve_lowdose dpk w k g snr mult range tracer true h = Return (A, v, t, m, s, c, ok) /\
    solve_lowdose dpk w k g snr mult range tracer false h
      = Return (A', v', t', m', s', c', ok') /\
    A' = dpk * w /\ A = A' * get_pediatric_dose_factor w /\ 0 <= A <= A'.
Proof.
  intros Hg Hdpk Hw. unfold solve_lowdose.
  rewrite snr_ratio_returns by exact Hg. cbn [bind].
  do 14 eexists. split; [reflexivity |]. split; [reflexivity |].
  split; [reflexivity |]. split; [reflexivity |].
  pose proof (dose_factor_range w) as Hdf.
  assert (Hp : 0 <= dpk * w) by nra.
  set (p := dpk * w) in *. set (df := get_pediatric_dose_factor w) in *. nra.
Qed.

Lemma solve_lowdose_pediatric_activity_witness :
  exists A v t m s c ok A' v' t' m' s' c' ok',
    solve_lowdose 2.5 20 1e-4 1.6 8 1 1050 "FDG" true None = Return (A, v, t, m, s, c, ok) /\
    solve_lowdose 2.5 20 1e-4 1.6 8 1 1050 "FDG" false None
      = Return (A', v', t', m', s', c', ok') /\
    A' = 2.5 * 20 /\ A = A' * get_pediatric_dose_factor 20 /\ 0 <= A <= A'.
Proof. apply solve_lowdose_pediatric_activity; lra. Defined.

End SolverMonotone.

(** ** Decay, calibration and the pediatric SNR target *)

Section DecayCalibration.
Import Py PETPhysicsModel Policy.
Local Open Scope R_scope.

Lemma exp_minus_ln2 : exp (- ln 2) = / 2.
Proof. rewrite exp_Ropp, exp_ln by lra. reflexivity. Qed.

(** Once the scan starts at or after the injection, starting it one
    half-life (109.77 min) later halves the effective activity; the
    activity is never negative, never more than the injected activity
    less the residual, and zero exactly when the residual is at least
    the injected activity. *)
Theorem effective_activity_mbq_half_life injected inj start tracer residual :
  exists a,
    effective_activity_mbq injected inj start tracer residual = Return a /\
    0 <= a <= Rmax (injected - residual) 0 /\
    (a = 0 <-> injected <= residual) /\
    (inj <= start ->
     effective_activity_mbq injected inj (start + 109.77 * 60) tracer residual
       = Return (a / 2)).
Proof.
  rewrite !effective_activity_mbq_value. eexists. split; [reflexivity |].
  pose proof decay_constant_pos as Hlam.
  set (lam := ln 2 / 109.77) in *.
  set (A0 := Rmax (injected - residual) 0.0).
  set (dt := Rmax ((start - inj) / 60.0) 0.0).
  assert (HA : 0 <= A0) by (unfold A0, Rmax; destruct Rle_dec; lra).
  assert (Hdt : 0 <= dt) by (unfold dt, Rmax; destruct Rle_dec; lra).
  assert (He : 0 < exp (- lam * dt) <= 1).
  { split; [apply exp_pos |]. rewrite <- exp_0. apply exp_monotone. nra. }
  repeat apply conj.
  - nra.
  - replace (Rmax (injected - residual) 0) with A0
      by (unfold A0; replace 0.0 with 0 by lra; reflexivity).
    nra.
  - intros H. apply Rmult_integral in H as [H | H]; [| lra].
    unfold A0, Rmax in H. destruct Rle_dec; lra.
  - intros H. replace A0 with 0; [ring |].
    unfold A0, Rmax. destruct Rle_dec; lra.
  - intros Hs. f_equal.
    replace (Rmax ((start + 109.77 * 60 - inj) / 60.0) 0.0) with (dt + 109.77).
    2:{ unfold dt, Rmax. repeat (destruct Rle_dec; try lra). }
    replace (- lam * (dt + 109.77)) with (- lam * dt + - ln 2)
      by (unfold lam; field; lra).
    rewrite exp_plus, exp_minus_ln2. field.
Qed.

Lemma effective_activity_mbq_half_life_witness :
  exists a,
    effective_activity_mbq 280 0 3600 "FDG" 0 = Return a /\
    effective_activity_mbq 280 0 (3600 + 109.77 * 60) "FDG" 0 = Return (a / 2).
Proof.
  destruct (effective_activity_mbq_half_life 280 0 3600 "FDG" 0) as (a & E & _ & _ & H).
  exists a. split; [exact E | apply H; lra].
Defined.

(** For every gain but zero [calibrate_k_from_reference] gives a k of
    at least 1e-9; weight and height play no part; and a k above that
    floor reproduces the site SNR on the reference scan:
    k * calculate_snr_from_nec(NEC of the reference) = snr_ref_site. *)
Theorem calibrate_k_reproduces_reference t_ref A_ref g snr_ref tracer w h :
  g <> 0 ->
  exists k,
    calibrate_k_from_reference t_ref A_ref g snr_ref tracer w h = Some k /\
    1e-9 <= k /\
    (forall w' h', calibrate_k_from_reference t_ref A_ref g snr_ref tracer w' h' = Some k) /\
    (1e-9 < k ->
     k * calculate_snr_from_nec (calculate_nec A_ref t_ref tracer) g = snr_ref).
Proof.
  intros Hg.
  unfold calibrate_k_from_reference, calculate_snr_from_nec, calculate_nec.
  set (q := sqrt (Rmax (A_ref * t_ref * get_system_sensitivity tracer) 1e-9)).
  assert (Hq : 0 < q) by apply sqrt_floor_pos.
  destruct (Req_dec_T (q * g) 0) as [H0 | Hne].
  - exfalso. apply Rmult_integral in H0. destruct H0; [lra | contradiction].
  - eexists. split; [reflexivity |].
    split; [unfold Rmax; destruct Rle_dec; lra |].
    split; [reflexivity |].
    intros Hk. replace (Rmax (snr_ref / (q * g)) 1e-9) with (snr_ref / (q * g)).
    + field. split; lra.
    + revert Hk. unfold Rmax. destruct Rle_dec; lra.
Qed.

Lemma calibrate_k_reproduces_reference_witness :
  exists k,
    calibrate_k_from_reference 200 288.6 1 12 "FDG" 70 170 = Some k /\ 1e-9 <= k.
Proof.
  destruct (calibrate_k_reproduces_reference 200 288.6 1 12 "FDG" 70 170)
    as (k & E & Hk & _); [lra |].
  exists k. split; assumption.
Defined.

(** Calibrating k on a reference scan and solving the standard protocol
    for the site SNR at the reference activity gives back the reference
    dwell: the velocity is the clamped and rounded velocity of
    t_ref * mult_bmi.  It needs a k above its floor and a reference NEC
    and count rate above theirs. *)
Theorem calibrate_then_solve_standard t_ref A_ref g snr_ref mult range tracer w h k :
  calibrate_k_from_reference t_ref A_ref g snr_ref tracer w h = Some k ->
  1e-9 < k -> 1e-6 <= A_ref * 9100 -> 1e-9 <= A_ref * t_ref * 9100 ->
  exists v t m s c ok,
    solve_standard A_ref k g snr_ref mult range tracer false None None
      = Return (v, t, m, s, c, ok) /\
    v = round1 (Rmax 0.5 (Rmin (AXFOV_MM / Rmax (t_ref * mult) 1e-6) 50.0)) /\
    t = AXFOV_MM / v.
Proof.
  unfold calibrate_k_from_reference. rewrite get_system_sensitivity_value.
  set (q := sqrt (Rmax (A_ref * t_ref * 9100) 1e-9)).
  assert (Hq : 0 < q) by apply sqrt_floor_pos.
  destruct (Req_dec_T (q * g) 0) as [H0 | Hne]; [discriminate |].
  intros Hk Hfloor HA Hnec. injection Hk as Hk.
  assert (Hg : g <> 0) by (intros ->; apply Hne; ring).
  assert (Hkv : k = snr_ref / (q * g)).
  { rewrite <- Hk. rewrite <- Hk in Hfloor. revert Hfloor.
    unfold Rmax. destruct Rle_dec; lra. }
  assert (Hsnr : snr_ref <> 0).
  { intros ->. rewrite Hkv in Hfloor. unfold Rdiv in Hfloor.
    rewrite Rmult_0_l in Hfloor. lra. }
  unfold solve_standard. rewrite snr_ratio_returns by exact Hg. cbn [bind].
  do 6 eexists. split; [reflexivity |]. split; [| reflexivity].
  rewrite get_system_sensitivity_value.
  replace (Rmax k 1e-9) with k by (unfold Rmax; destruct Rle_dec; lra).
  assert (Hratio : snr_ref / (k * g) = q) by (rewrite Hkv; field; repeat split; lra).
  rewrite Hratio.
  assert (Hq2 : q ^ 2 = A_ref * t_ref * 9100).
  { unfold q. simpl. rewrite Rmult_1_r, sqrt_sqrt.
    - unfold Rmax. destruct Rle_dec; lra.
    - unfold Rmax. destruct Rle_dec; lra. }
  rewrite Hq2.
  replace (Rmax (A_ref * 9100) 1e-6) with (A_ref * 9100)
    by (unfold Rmax; destruct Rle_dec; lra).
  replace (A_ref * t_ref * 9100 / (A_ref * 9100) * mult) with (t_ref * mult)
    by (field; lra).
  reflexivity.
Qed.

Lemma calibrate_then_solve_standard_witness :
  exists v t m s c ok,
    solve_standard 1 (Rmax (1 / (sqrt (Rmax (1 * 1 * get_system_sensitivity "FDG") 1e-9) * 1)) 1e-9)
      1 1 1 1050 "FDG" false None None = Return (v, t, m, s, c, ok) /\
    v = round1 (Rmax 0.5 (Rmin (AXFOV_MM / Rmax (1 * 1) 1e-6) 50.0)) /\
    t = AXFOV_MM / v.
Proof.
  assert (Hq : sqrt (Rmax (1 * 1 * get_system_sensitivity "FDG") 1e-9) = sqrt 9100).
  { rewrite get_system_sensitivity_value. f_equal. unfold Rmax. destruct Rle_dec; lra. }
  assert (Hs : 1 < sqrt 9100 < 9100).
  { split.
    - rewrite <- sqrt_1 at 1. apply sqrt_lt_1; lra.
    - replace 9100 with (sqrt (9100 * 9100)) at 2 by (apply sqrt_square; lra).
      apply sqrt_lt_1; lra. }
  assert (Hk : 1e-9 < 1 / (sqrt 9100 * 1)).
  { apply Rmult_lt_reg_r with (sqrt 9100 * 1); [lra |].
    replace (1 / (sqrt 9100 * 1) * (sqrt 9100 * 1)) with 1 by (field; lra). lra. }
  apply (calibrate_then_solve_standard 1 1 1 1 1 1050 "FDG" 70 170).
  - unfold calibrate_k_from_reference.
    destruct Req_dec_T as [H0 | _]; [| reflexivity].
    exfalso. rewrite Hq in H0. lra.
  - rewrite Hq. unfold Rmax. destruct Rle_dec; lra.
  - lra.
  - lra.
Defined.

(** The pediatric SNR target lies within [6.8, 12]: its lower clamp 5.0
    is never reached.  The table is read with the label as given, so
    every label other than "PSMA" itself, also one that [tracer_key]
    resolves to PSMA, gets the FDG target. *)
Theorem get_pediatric_snr_target_range (tracer : string) (w : R) :
  6.8 <= get_pediatric_snr_target tracer w <= 12 /\
  (tracer <> "PSMA"%string ->
   get_pediatric_snr_target tracer w = get_pediatric_snr_target "FDG" w) /\
  get_pediatric_snr_target "FDG" w <= get_pediatric_snr_target "PSMA" w.
Proof.
  assert (Hbase : forall t, t <> "PSMA"%string -> dict_get PEDIATRIC_SNR_TARGETS t 8.0 = 8.0).
  { intros t Ht. unfold dict_get, PEDIATRIC_SNR_TARGETS, dict_lookup.
    destruct (String.eqb t "FDG"); [reflexivity |].
    destruct (String.eqb_spec t "PSMA"); [contradiction | reflexivity]. }
  assert (Hpsma : dict_get PEDIATRIC_SNR_TARGETS "PSMA" 8.0 = 10.0) by reflexivity.
  assert (Hcases : dict_get PEDIATRIC_SNR_TARGETS tracer 8.0 = 8.0 \/
                   dict_get PEDIATRIC_SNR_TARGETS tracer 8.0 = 10.0).
  { destruct (String.eqb_spec tracer "PSMA") as [-> | Hne]; [right; exact Hpsma |].
    left. apply Hbase, Hne. }
  unfold get_pediatric_snr_target.
  repeat apply conj.
  - destruct Hcases as [-> | ->];
      destruct (pediatric_tables_view w)
        as [[_ [E _]] | [[_ [E _]] | [[_ [E _]] | [[_ [E _]] | [[_ [E _]] | [_ [E _]]]]]]];
      rewrite E; unfold Rmax, Rmin; repeat (destruct Rle_dec; try lra).
  - destruct Hcases as [-> | ->];
      destruct (pediatric_tables_view w)
        as [[_ [E _]] | [[_ [E _]] | [[_ [E _]] | [[_ [E _]] | [[_ [E _]] | [_ [E _]]]]]]];
      rewrite E; unfold Rmax, Rmin; repeat (destruct Rle_dec; try lra).
  - intros Hne. rewrite (Hbase tracer Hne), (Hbase "FDG"%string) by discriminate.
    reflexivity.
  - rewrite (Hbase "FDG"%string) by discriminate. rewrite Hpsma.
    destruct (pediatric_tables_view w)
      as [[_ [E _]] | [[_ [E _]] | [[_ [E _]] | [[_ [E _]] | [[_ [E _]] | [_ [E _]]]]]]];
      rewrite E; unfold Rmax, Rmin; repeat (destruct Rle_dec; try lra).
Qed.

Lemma get_pediatric_snr_target_range_witness :
  get_pediatric_snr_target "F-18 PSMA-1007" 20 = get_pediatric_snr_target "FDG" 20 /\
  tracer_key "F-18 PSMA-1007" = "PSMA"%string.
Proof.
  destruct (get_pediatric_snr_target_range "F-18 PSMA-1007" 20) as (_ & H & _).
  split; [apply H; discriminate | reflexivity].
Defined.

End DecayCalibration.

(** ** Age groups, lean body mass and the BMI multiplier *)

Section BodyModel.
Import Py PETPhysicsModel Policy.
Local Open Scope R_scope.

(** The age group of a weight is the first range of the table holding
    it: a weight on a bound shared by two ranges (5, 15, 25, 50 kg) is in
    the younger group, and there is no group below 0.5 kg or above
    100 kg.  From 35 kg to 100 kg a patient has an age group although
    [is_pediatric_patient] is false. *)
Theorem get_pediatric_age_group_ranges (w : R) :
  (get_pediatric_age_group w = None <-> w < 0.5 \/ 100 < w) /\
  (get_pediatric_age_group w = Some "neonate"%string <-> 0.5 <= w <= 5) /\
  (get_pediatric_age_group w = Some "infant"%string <-> 5 < w <= 15) /\
  (get_pediatric_age_group w = Some "toddler"%string <-> 15 < w <= 25) /\
  (get_pediatric_age_group w = Some "child"%string <-> 25 < w <= 50) /\
  (get_pediatric_age_group w = Some "adolescent"%string <-> 50 < w <= 100) /\
  (35 <= w <= 100 ->
   is_pediatric_patient w = false /\ get_pediatric_age_group w <> None).
Proof.
  repeat apply conj;
    try (intros H;
         destruct (age_group_view w)
           as [[Hw E] | [[Hw E] | [[Hw E] | [[Hw E] | [[Hw E] | [Hw E]]]]]];
         rewrite E in *; first [discriminate | reflexivity | lra | tauto]).
  intros H. split; [apply ltb_ge; lra |].
  destruct (age_group_view w)
    as [[Hw E] | [[Hw E] | [[Hw E] | [[Hw E] | [[Hw E] | [Hw E]]]]]];
    rewrite E; first [discriminate | lra].
Qed.

Lemma get_pediatric_age_group_ranges_witness :
  get_pediatric_age_group 5 = Some "neonate"%string /\
  get_pediatric_age_group 25 = Some "toddler"%string /\
  get_pediatric_age_group 0.4 = None /\
  is_pediatric_patient 40 = false /\ get_pediatric_age_group 40 <> None.
Proof.
  split; [apply (get_pediatric_age_group_ranges 5); lra |].
  split; [apply (get_pediatric_age_group_ranges 25); lra |].
  split; [apply (get_pediatric_age_group_ranges 0.4); lra |].
  apply (get_pediatric_age_group_ranges 40). lra.
Defined.

(** [calculate_lbm] below 35 kg never looks at the height or the
    gender and cannot fail, and gives less than 30 kg, between 0.70 and
    0.85 times a weight that is not negative.  From 35 kg on it raises
    ZeroDivisionError on a zero height, and whatever it returns is at
    least 30 kg and at most max(1.10 * weight, 30).  So a result below
    30 kg tells a weight below 35 kg. *)
Theorem calculate_lbm_branches (w h : R) (g : option string) :
  (w < 35 ->
   exists lbm, calculate_lbm w h g = Return lbm /\
               (forall h' g', calculate_lbm w h' g' = Return lbm) /\
               lbm < 30 /\ (0 <= w -> 0.70 * w <= lbm <= 0.85 * w)) /\
  (35 <= w -> h = 0 -> calculate_lbm w h g = Raise ZeroDivisionError) /\
  (35 <= w ->
   forall lbm, calculate_lbm w h g = Return lbm -> 30 <= lbm <= Rmax (1.10 * w) 30) /\
  (forall lbm, calculate_lbm w h g = Return lbm -> lbm < 30 -> w < 35).
Proof.
  assert (Hadult : 35 <= w ->
            forall lbm, calculate_lbm w h g = Return lbm -> 30 <= lbm <= Rmax (1.10 * w) 30).
  { intros Hw lbm E. destruct (Req_dec h 0) as [-> | Hh].
    - revert E. unfold calculate_lbm, is_pediatric_patient, div.
      rewrite (proj2 (ltb_ge w 35.0)) by lra.
      destruct (Req_dec_T 0 0); [discriminate | contradiction].
    - rewrite (calculate_lbm_adult w h g Hw Hh) in E. injection E as <-.
      assert (Hsq : 0 <= (w / h) ^ 2) by (simpl; nra).
      destruct (is_male g); unfold Rmax; repeat (destruct Rle_dec; try lra). }
  repeat apply conj.
  - intros Hw. destruct (calculate_lbm_pediatric w h g Hw) as (f & Hf & E).
    exists (w * f). split; [exact E |]. split.
    + intros h' g'. rewrite <- E. unfold calculate_lbm, is_pediatric_patient.
      rewrite (proj2 (ltb_lt w 35.0)) by lra. reflexivity.
    + split; [| intros H0]; destruct Hf as [-> | [-> | [-> | ->]]]; lra.
  - intros Hw ->. unfold calculate_lbm, is_pediatric_patient, div.
    rewrite (proj2 (ltb_ge w 35.0)) by lra.
    destruct (Req_dec_T 0 0); [reflexivity | contradiction].
  - exact Hadult.
  - intros lbm E Hlt. destruct (Rlt_dec w 35) as [Hw | Hw]; [exact Hw |].
    exfalso. assert (H35 : 35 <= w) by lra.
    pose proof (Hadult H35 lbm E). lra.
Qed.

Lemma calculate_lbm_branches_witness :
  (exists lbm, calculate_lbm 20 0 None = Return lbm /\ lbm < 30) /\
  calculate_lbm 70 0 (Some "male"%string) = Raise ZeroDivisionError.
Proof.
  destruct (calculate_lbm_branches 20 0 None) as [Hped _].
  destruct (calculate_lbm_branches 70 0 (Some "male"%string)) as (_ & Hraise & _).
  split.
  - destruct Hped as (lbm & E & _ & Hlt & _); [lra |]. exists lbm. split; assumption.
  - apply Hraise; [lra | reflexivity].
Defined.

(** For every positive reference BMI and every cap, [bmi_multiplier]
    returns a factor of at least 1; with a zero reference it raises
    ZeroDivisionError as soon as the capped BMI is positive. *)
Theorem bmi_multiplier_any_reference (bmi : R) (tracer : string) (bmi_ref bmi_cap : R) :
  (0 < bmi_ref ->
   exists m, bmi_multiplier bmi tracer bmi_ref bmi_cap = Return m /\ 1 <= m) /\
  (bmi_ref = 0 -> 0 < Rmin bmi bmi_cap ->
   bmi_multiplier bmi tracer bmi_ref bmi_cap = Raise ZeroDivisionError).
Proof.
  unfold bmi_multiplier. split.
  - intros Href. destruct (leb (Rmin bmi bmi_cap) bmi_ref) eqn:E.
    + exists 1.0. split; [reflexivity | lra].
    + apply leb_gt in E. unfold div.
      destruct (Req_dec_T bmi_ref 0); [lra |]. cbn [bind]. unfold pow.
      assert (Hr : 1 <= Rmin bmi bmi_cap / bmi_ref).
      { apply Rmult_le_reg_r with bmi_ref; [exact Href |].
        replace (Rmin bmi bmi_cap / bmi_ref * bmi_ref) with (Rmin bmi bmi_cap)
          by (field; lra).
        lra. }
      destruct (Rlt_dec 0 (Rmin bmi bmi_cap / bmi_ref)) as [_ | Hn]; [| lra].
      eexists. split; [reflexivity |].
      apply Rpower_ge_1; [exact Hr | apply bmi_exponent_pos].
  - intros -> Hpos. rewrite (proj2 (leb_gt (Rmin bmi bmi_cap) 0)) by exact Hpos.
    unfold div. destruct (Req_dec_T 0 0); [reflexivity | contradiction].
Qed.

Lemma bmi_multiplier_any_reference_witness :
  (exists m, bmi_multiplier 31 "FDG" 25 45 = Return m /\ 1 <= m) /\
  bmi_multiplier 31 "FDG" 0 45 = Raise ZeroDivisionError.
Proof.
  split.
  - apply (bmi_multiplier_any_reference 31 "FDG" 25 45). lra.
  - apply (bmi_multiplier_any_reference 31 "FDG" 0 45); [reflexivity |].
    unfold Rmin. destruct Rle_dec; lra.
Defined.

(** At the same BMI the multiplier of an FDG label is never below the
    one of a PSMA label (exponent 0.6 against 0.4). *)
Theorem bmi_multiplier_fdg_above_psma (bmi : R) (fdg psma : string) :
  tracer_key fdg = "FDG"%string -> tracer_key psma = "PSMA"%string ->
  exists m_fdg m_psma,
    bmi_multiplier bmi fdg bmi_ref_default bmi_cap_default = Return m_fdg /\
    bmi_multiplier bmi psma bmi_ref_default bmi_cap_default = Return m_psma /\
    m_psma <= m_fdg.
Proof.
  intros Hf Hp. rewrite !bmi_multiplier_value, Hf, Hp. cbn [String.eqb Ascii.eqb Bool.eqb].
  do 2 eexists. split; [reflexivity |]. split; [reflexivity |].
  destruct (Rle_dec (Rmin bmi 40) 22); [lra |].
  apply Rle_Rpower; [| lra].
  apply Rmult_le_reg_r with 22; [lra |].
  replace (Rmin bmi 40 / 22 * 22) with (Rmin bmi 40) by (field; lra). lra.
Qed.

Lemma bmi_multiplier_fdg_above_psma_witness :
  exists m_fdg m_psma,
    bmi_multiplier 31 "FDG" bmi_ref_default bmi_cap_default = Return m_fdg /\
    bmi_multiplier 31 "F-18 PSMA-1007" bmi_ref_default bmi_cap_default = Return m_psma /\
    m_psma <= m_fdg.
Proof. apply bmi_multiplier_fdg_above_psma; reflexivity. Defined.

End BodyModel.

(** ** Tracer labels *)

Section TracerLabels.
Import Py PETPhysicsModel.
Local Open Scope string_scope.

Lemma upper_ascii_idem (c : ascii) : upper_ascii (upper_ascii c) = upper_ascii c.
Proof. destruct c as [[] [] [] [] [] [] [] []]; reflexivity. Qed.

Lemma upper_lower_ascii (c : ascii) : upper_ascii (lower_ascii c) = upper_ascii c.
Proof. destruct c as [[] [] [] [] [] [] [] []]; reflexivity. Qed.

Lemma upper_idem (s : string) : upper (upper s) = upper s.
Proof.
  induction s as [| c s IH]; [reflexivity |].
  cbn [upper]. rewrite upper_ascii_idem, IH. reflexivity.
Qed.

Lemma upper_lower (s : string) : upper (lower s) = upper s.
Proof.
  induction s as [| c s IH]; [reflexivity |].
  cbn [upper lower]. rewrite upper_lower_ascii, IH. reflexivity.
Qed.

(** [tracer_key] does not see the case of the letters of a label, and
    resolving a resolved key changes nothing. *)
Theorem tracer_key_case_and_idempotence (label : string) :
  tracer_key (upper label) = tracer_key label /\
  tracer_key (lower label) = tracer_key label /\
  tracer_key (tracer_key label) = tracer_key label.
Proof.
  unfold tracer_key at 1 3 5. rewrite upper_idem, upper_lower.
  repeat split; try reflexivity.
  unfold tracer_key. destruct (contains "PSMA" (upper label)); reflexivity.
Qed.

End TracerLabels.

(** * Further properties of the k-factor store *)

(** ** Keys and appended measurements *)

Section StoreKeys.
Import Py PETPhysicsModel KFactorStore.

Lemma store_key_tracer_key (label recon_profile : string) :
  store_key (tracer_key label) recon_profile = String "F" (String "D" (String "G" (String "_" recon_profile))) \/
  store_key (tracer_key label) recon_profile =
    String "P" (String "S" (String "M" (String "A" (String "_" recon_profile)))).
Proof.
  unfold tracer_key. destruct (contains "PSMA" (upper label)); [right | left]; reflexivity.
Qed.

(** Two measurements filed under resolved tracer keys share a store key
    only if tracer key and profile are the same, although the joined
    key is ambiguous for arbitrary tracer names: "A_B" with "C" and
    "A" with "B_C" give one key. *)
Theorem store_key_unambiguous_for_tracer_keys :
  (forall label1 label2 profile1 profile2,
     store_key (tracer_key label1) profile1 = store_key (tracer_key label2) profile2 ->
     tracer_key label1 = tracer_key label2 /\ profile1 = profile2) /\
  (forall a b c : string,
     store_key (a ++ "_" ++ b) c = store_key a (b ++ "_" ++ c)).
Proof.
  split.
  - intros label1 label2 profile1 profile2.
    unfold tracer_key.
    destruct (contains "PSMA" (upper label1)), (contains "PSMA" (upper label2));
      cbv [store_key append]; intros H; first [discriminate | injection H as ->; auto].
  - intros a b c. unfold store_key.
    induction a as [| x a IH]; [reflexivity |].
    rewrite (append_cons x a), (append_cons x), (append_cons x a), IH. reflexivity.
Qed.

Lemma store_key_unambiguous_for_tracer_keys_witness :
  tracer_key "FDG" = tracer_key "fdg (F-18)" /\ "EARL"%string = "EARL"%string.
Proof.
  destruct store_key_unambiguous_for_tracer_keys as [H _].
  apply H. reflexivity.
Defined.

End StoreKeys.

Section StoreAppend.
Import Py KFactorStore.

Context {world : Type}.
Context (path_exists : world -> outcome bool).
Context (read_text : world -> outcome string).
Context (write_text : string -> world -> world * outcome unit).
Context (json_loads : string -> outcome json).
Context (json_dumps : json -> outcome string).

Local Abbreviation add := (add_k_measurement world write_text json_dumps).
Local Abbreviation get_summary :=
  (get_site_k_summary world path_exists read_text json_loads).

(** [add_k_measurement] appends the value to the list of its key, keeps
    what the key held before and leaves every other key alone; the
    stored value equals the given one; and the summary of the key then
    exists and counts one measurement more. *)
Theorem add_k_measurement_appends store tracer profile k (w : world) :
  let key := store_key tracer profile in
  let old := default [] (store !! key) in
  exists w' store',
    add store tracer profile k w = (w', Return store') /\
    store' !! key = Some (old ++ [float k]) /\
    (float k == k)%Q /\
    (forall key', key' <> key -> store' !! key' = store !! key') /\
    exists med p25 p75,
      summarize_k store' tracer profile = Some (med, p25, p75, S (List.length old)).
Proof.
  intros key old.
  pose proof (add_k_measurement_returns write_text json_dumps store tracer profile k w) as H.
  destruct (add store tracer profile k w) as [w' r]. cbn [snd] in H. subst r.
  do 2 eexists. split; [reflexivity |].
  split; [apply lookup_insert_eq |].
  split; [apply Qred_correct |].
  split; [intros key' Hne; apply lookup_insert_ne; intros Heq; apply Hne;
          rewrite <- Heq; reflexivity |].
  replace (S (List.length old)) with (List.length (old ++ [float k]))
    by (rewrite length_app; cbn; lia).
  do 3 eexists. apply summarize_k_value.
  - apply lookup_insert_eq.
  - destruct old; discriminate.
Qed.

Lemma json_floats_of_nums (vals : list Q) : json_floats (JNum <$> vals) = Some vals.
Proof.
  induction vals as [| x vals IH]; [reflexivity |].
  cbn [fmap list_fmap json_floats]. cbn in IH. rewrite IH. reflexivity.
Qed.

(** On the JSON value of a store, the summary read from a loaded value
    is the summary of the store. *)
Lemma summarize_k_loaded_store_json (store : gmap string (list Q)) (tracer profile : string) :
  summarize_k_loaded (store_json store) tracer profile =
    Summary (summarize_k store tracer profile).
Proof.
  unfold summarize_k_loaded, store_json, summarize_k. rewrite lookup_fmap.
  destruct (store !! store_key tracer profile) as [[| x vals] |]; cbn [fmap option_fmap option_map default];
    [reflexivity | | reflexivity].
  cbn [fmap list_fmap]. unfold Datatypes.id. cbn [json_truthy json_floats].
  pose proof (json_floats_of_nums vals) as H. unfold fmap in H.
  rewrite H. reflexivity.
Qed.

(** Once the existence test has returned, [get_site_k_summary] gives
    [None] when the file is missing, unreadable or unparsable, and when
    it holds an object without the key; it fails with AttributeError
    when the file parses to a value that is not an object; and an
    exception of the existence test comes out of it unchanged. *)
Theorem get_site_k_summary_cases tracer profile (w : world) :
  (path_exists w = Return false -> get_summary tracer profile w = Return (Summary None)) /\
  (forall e,
     path_exists w = Return true -> read_text w = Raise e ->
     get_summary tracer profile w = Return (Summary None)) /\
  (forall text e,
     path_exists w = Return true -> read_text w = Return text ->
     json_loads text = Raise e ->
     get_summary tracer profile w = Return (Summary None)) /\
  (forall text m,
     path_exists w = Return true -> read_text w = Return text ->
     json_loads text = Return (JObj m) -> m !! store_key tracer profile = None ->
     get_summary tracer profile w = Return (Summary None)) /\
  (forall text data,
     path_exists w = Return true -> read_text w = Return text ->
     json_loads text = Return data -> (forall m, data <> JObj m) ->
     get_summary tracer profile w = Return AttributeError) /\
  (forall e, path_exists w = Raise e -> get_summary tracer profile w = Raise e).
Proof.
  unfold get_site_k_summary.
  destruct (load_store_cases path_exists read_text json_loads w)
    as (Hmiss & Hread & Hparse & Hload & Hraise).
  repeat apply conj.
  - intros H. rewrite (Hmiss H). reflexivity.
  - intros e H0 H1. rewrite (Hread e H0 H1). reflexivity.
  - intros text e H0 H1 H2. rewrite (Hparse text e H0 H1 H2). reflexivity.
  - intros text m H0 H1 H2 Hkey. rewrite (Hload text _ H0 H1 H2). cbn [bind].
    unfold summarize_k_loaded. rewrite Hkey. reflexivity.
  - intros text data H0 H1 H2 Hdata. rewrite (Hload text _ H0 H1 H2). cbn [bind].
    destruct data; try reflexivity. exfalso. eapply Hdata. reflexivity.
  - intros e H. rewrite (Hraise e H). reflexivity.
Qed.

End StoreAppend.

Section ReadBack.
Import Py KFactorStore.

Context (json_loads : string -> outcome json).
Context (json_dumps : json -> outcome string).

(** On the file kept in memory, with a codec that reads the text it
    wrote for the new store back to that store, [add_k_measurement]
    leaves a file from which [get_site_k_summary] reads the summary of
    the new store, the added measurement included: the write, the
    existence test and the read in between are the code's own. *)
Theorem added_measurement_is_read_back store tracer profile k (w : option string) text :
  let store' :=
    <[store_key tracer profile :=
        default [] (store !! store_key tracer profile) ++ [float k]]> store in
  json_dumps (store_json store') = Return text ->
  json_loads text = Return (store_json store') ->
  exists w',
    add_k_measurement (option string) mem_write_text json_dumps store tracer profile k w
      = (w', Return store') /\
    get_site_k_summary (option string) mem_exists mem_read_text json_loads tracer profile w'
      = Return (Summary (summarize_k store' tracer profile)) /\
    exists med p25 p75,
      summarize_k store' tracer profile =
        Some (med, p25, p75,
              S (List.length (default [] (store !! store_key tracer profile)))).
Proof.
  intros store' Hdump Hload. exists (Some text). repeat apply conj.
  - unfold add_k_measurement, save_store. fold store'. rewrite Hdump. reflexivity.
  - unfold get_site_k_summary, load_store, mem_exists, mem_read_text.
    cbn [bind try_except]. rewrite Hload. cbn [bind try_except].
    rewrite summarize_k_loaded_store_json. reflexivity.
  - replace (S (List.length (default [] (store !! store_key tracer profile))))
      with (List.length (default [] (store !! store_key tracer profile) ++ [float k]))
      by (rewrite length_app; cbn; lia).
    do 3 eexists. apply summarize_k_value.
    + apply lookup_insert_eq.
    + destruct (default [] (store !! store_key tracer profile)); discriminate.
Qed.

(** With a disk that cannot be written the same call returns the new
    store all the same, and the file keeps the old summary. *)
Lemma failed_write_is_not_read_back store tracer profile k (w : option string) :
  let store' :=
    <[store_key tracer profile :=
        default [] (store !! store_key tracer profile) ++ [float k]]> store in
  add_k_measurement (option string) (fun _ w0 => (w0, Raise OSError)) json_dumps
    store tracer profile k w = (w, Return store').
Proof.
  intros store'. unfold add_k_measurement, save_store. fold store'.
  destruct (json_dumps (store_json store')); reflexivity.
Qed.

End ReadBack.

Lemma add_k_measurement_appends_witness :
  exists w' store',
    KFactorStore.add_k_measurement (option string)
      (fun text _ => (Some text, Py.Return tt)) (fun _ => Py.Return "{}"%string)
      {["FDG_EARL"%string := [1%Q]]} "FDG" "EARL" 2 None = (w', Py.Return store') /\
    store' !! "FDG_EARL"%string = Some [1%Q; 2%Q].
Proof.
  destruct (add_k_measurement_appends
              (fun text (_ : option string) => (Some text, Py.Return tt))
              (fun _ => Py.Return "{}"%string)
              {["FDG_EARL"%string := [1%Q]]} "FDG" "EARL" 2 None)
    as (w' & store' & E & Hkey & _).
  exists w', store'. split; [exact E | exact Hkey].
Defined.

Lemma get_site_k_summary_cases_witness :
  KFactorStore.get_site_k_summary (option string)
    KFactorStore.mem_exists KFactorStore.mem_read_text
    (fun _ => Py.Return (KFactorStore.JArr [])) "FDG" "EARL" (Some "[]"%string)
  = Py.Return KFactorStore.AttributeError /\
  KFactorStore.get_site_k_summary (option string)
    KFactorStore.mem_exists KFactorStore.mem_read_text
    KFactorStore.mem_loads "FDG" "EARL" None
  = Py.Return (KFactorStore.Summary None).
Proof.
  split.
  - eapply (get_site_k_summary_cases
              KFactorStore.mem_exists KFactorStore.mem_read_text
              (fun _ => Py.Return (KFactorStore.JArr [])) "FDG" "EARL" (Some "[]"%string)).
    + reflexivity.
    + reflexivity.
    + reflexivity.
    + intros m. discriminate.
  - apply (get_site_k_summary_cases
             KFactorStore.mem_exists KFactorStore.mem_read_text
             KFactorStore.mem_loads "FDG" "EARL" None).
    reflexivity.
Defined.

(** The codec of the environment writes the store with the measurement
    5.0 as a text that it reads back, and the summary read from the
    file is (5, 5, 5, 1). *)
Lemma added_measurement_is_read_back_witness :
  exists w' text,
    KFactorStore.mem_dumps (KFactorStore.store_json {["FDG_EARL"%string := [5%Q]]})
      = Py.Return text /\
    KFactorStore.add_k_measurement (option string)
      KFactorStore.mem_write_text KFactorStore.mem_dumps ∅ "FDG" "EARL" 5 None
      = (w', Py.Return {["FDG_EARL"%string := [5%Q]]}) /\
    KFactorStore.get_site_k_summary (option string)
      KFactorStore.mem_exists KFactorStore.mem_read_text KFactorStore.mem_loads
      "FDG" "EARL" w'
      = Py.Return (KFactorStore.Summary (Some (5%Q, 5%Q, 5%Q, 1%nat))).
Proof.
  destruct (KFactorStore.mem_dumps (KFactorStore.store_json {["FDG_EARL"%string := [5%Q]]}))
    as [text | e] eqn:Hdump; [| vm_compute in Hdump; discriminate].
  assert (Hload : KFactorStore.mem_loads text
                  = Py.Return (KFactorStore.store_json {["FDG_EARL"%string := [5%Q]]})).
  { vm_compute in Hdump. injection Hdump as <-. vm_compute. reflexivity. }
  assert (Hs : <[KFactorStore.store_key "FDG" "EARL" :=
                   default [] ((∅ : gmap string (list Q)) !! KFactorStore.store_key "FDG" "EARL")
                   ++ [KFactorStore.float 5]]> (∅ : gmap string (list Q))
                = {["FDG_EARL"%string := [5%Q]]}) by reflexivity.
  pose proof (added_measurement_is_read_back KFactorStore.mem_loads KFactorStore.mem_dumps
                ∅ "FDG" "EARL" 5 None text) as H.
  cbv zeta in H. rewrite Hs in H.
  destruct (H Hdump Hload) as (w' & Hadd & Hget & _).
  exists w', text. split; [reflexivity |]. split; [exact Hadd | exact Hget].
Defined.

(** ** The summary as order statistics *)

Section OrderStatistics.
Import Py KFactorStore.
Local Open Scope Q_scope.

Lemma Qle_bool_false (a b : Q) : Qle_bool a b = false -> b < a.
Proof.
  intros H. apply Qnot_le_lt. intros Hle. apply Qle_bool_iff in Hle. congruence.
Qed.

(** Turn every decided comparison of the context into an order fact. *)
Ltac order_facts :=
  repeat match goal with
    | H : Qle_bool _ _ = true |- _ => apply Qle_bool_iff in H
    | H : Qle_bool _ _ = false |- _ => apply Qle_bool_false in H
    end.

Ltac sorted_cases IH :=
  cbn [insert_sorted];
  repeat (match goal with
          | |- context [Qle_bool ?a ?b] => destruct (Qle_bool a b) eqn:?
          end; cbn [insert_sorted]);
  order_facts;
  first [ exfalso; Lqa.lra
        | repeat (constructor; [Lqa.lra |]); first [reflexivity | apply IH] ].

Lemma insert_sorted_Qeq (x y : Q) (l1 l2 : list Q) :
  x == y -> Forall2 Qeq l1 l2 -> Forall2 Qeq (insert_sorted x l1) (insert_sorted y l2).
Proof.
  intros Hxy Hl. induction Hl as [| a b l1 l2 Hab Hl IH].
  - cbn. constructor; [exact Hxy | constructor].
  - cbn [insert_sorted].
    destruct (Qle_bool x a) eqn:E1, (Qle_bool y b) eqn:E2; order_facts.
    + constructor; [exact Hxy |]. constructor; assumption.
    + exfalso. Lqa.lra.
    + exfalso. Lqa.lra.
    + constructor; [exact Hab | exact IH].
Qed.

Lemma insert_sorted_comm (x y : Q) (l : list Q) :
  Forall2 Qeq (insert_sorted x (insert_sorted y l)) (insert_sorted y (insert_sorted x l)).
Proof.
  induction l as [| z l IH]; sorted_cases IH.
Qed.

(** Sorting two arrangements of the same values gives the same
    sequence, value by value. *)
Lemma np_sort_perm_Qeq (l1 l2 : list Q) :
  Permutation l1 l2 -> Forall2 Qeq (np_sort l1) (np_sort l2).
Proof.
  induction 1 as [| x l1 l2 _ IH | x y l | l1 l2 l3 _ IH1 _ IH2].
  - constructor.
  - change (Forall2 Qeq (insert_sorted x (np_sort l1)) (insert_sorted x (np_sort l2))).
    apply insert_sorted_Qeq; [reflexivity | exact IH].
  - change (Forall2 Qeq (insert_sorted y (insert_sorted x (np_sort l)))
                        (insert_sorted x (insert_sorted y (np_sort l)))).
    apply insert_sorted_comm.
  - etransitivity; eassumption.
Qed.

Lemma nth_Qeq (s1 s2 : list Q) (i : nat) :
  Forall2 Qeq s1 s2 -> nth i s1 0 == nth i s2 0.
Proof.
  intros H. revert i. induction H as [| a b s1 s2 Hab _ IH]; intros [| i]; cbn;
    first [reflexivity | exact Hab | apply IH].
Qed.

Lemma np_median_perm (a b : list Q) : Permutation a b -> np_median a == np_median b.
Proof.
  intros H. apply np_sort_perm_Qeq in H. unfold np_median.
  rewrite (Forall2_length _ _ _ H).
  destruct (Nat.even (List.length (np_sort b))).
  - rewrite (nth_Qeq _ _ _ H), (nth_Qeq _ _ (List.length (np_sort b) / 2) H). reflexivity.
  - apply nth_Qeq, H.
Qed.

Lemma np_percentile_perm (a b : list Q) (q : Q) :
  Permutation a b -> np_percentile a q == np_percentile b q.
Proof.
  intros H. apply np_sort_perm_Qeq in H. unfold np_percentile.
  rewrite (Forall2_length _ _ _ H).
  set (vi := q / 100 * inject_Z (Z.of_nat (List.length (np_sort b) - 1))).
  rewrite (nth_Qeq _ _ (Z.to_nat (Qfloor vi)) H).
  rewrite (nth_Qeq _ _ (Nat.min (Z.to_nat (Qfloor vi) + 1) (List.length (np_sort b) - 1)) H).
  reflexivity.
Qed.

(** The summary of a key does not depend on the order in which its
    measurements were added: two stores whose lists for the key are
    arrangements of one another have the same summary. *)
Theorem summarize_k_ignores_order
    (store1 store2 : gmap string (list Q)) (tracer profile : string) (vals1 vals2 : list Q) :
  store1 !! store_key tracer profile = Some vals1 ->
  store2 !! store_key tracer profile = Some vals2 ->
  Permutation vals1 vals2 ->
  summarize_k store1 tracer profile = summarize_k store2 tracer profile.
Proof.
  intros H1 H2 Hperm.
  destruct vals1 as [| x vals1].
  - apply Permutation_nil in Hperm. subst vals2.
    unfold summarize_k. rewrite H1, H2. reflexivity.
  - assert (Hne : vals2 <> []).
    { intros ->. symmetry in Hperm. apply Permutation_nil in Hperm. discriminate. }
    rewrite (summarize_k_value _ _ _ _ H1) by discriminate.
    rewrite (summarize_k_value _ _ _ _ H2) by exact Hne.
    unfold float.
    rewrite (Qred_complete _ _ (np_median_perm _ _ Hperm)).
    rewrite (Qred_complete _ _ (np_percentile_perm _ _ 25 Hperm)).
    rewrite (Qred_complete _ _ (np_percentile_perm _ _ 75 Hperm)).
    rewrite (Permutation_length Hperm). reflexivity.
Qed.

Lemma summarize_k_ignores_order_witness :
  summarize_k {["FDG_EARL"%string := [3; 1; 2]]} "FDG" "EARL" =
  summarize_k {["FDG_EARL"%string := [1; 2; 3]]} "FDG" "EARL".
Proof.
  apply (summarize_k_ignores_order _ _ "FDG" "EARL" [3; 1; 2] [1; 2; 3]).
  - apply lookup_singleton_eq.
  - apply lookup_singleton_eq.
  - apply perm_trans with [1; 3; 2]; [apply perm_swap | apply perm_skip, perm_swap].
Defined.

End OrderStatistics.

Section SummaryRange.
Import Py KFactorStore.
Local Open Scope Q_scope.

Lemma np_sort_length (l : list Q) : List.length (np_sort l) = List.length l.
Proof. apply Permutation_length, np_sort_perm. Qed.

Lemma np_sort_nth_range (vals : list Q) (lo hi : Q) (i : nat) :
  (forall x, In x vals -> lo <= x <= hi) ->
  (i < List.length (np_sort vals))%nat ->
  lo <= nth i (np_sort vals) 0 <= hi.
Proof.
  intros Hall Hi. apply Hall.
  apply (Permutation_in _ (np_sort_perm vals)). apply nth_In. exact Hi.
Qed.

Lemma np_median_range (vals : list Q) (lo hi : Q) :
  vals <> [] -> (forall x, In x vals -> lo <= x <= hi) ->
  lo <= np_median vals <= hi.
Proof.
  intros Hne Hall. unfold np_median.
  set (n := List.length (np_sort vals)).
  assert (Hn : (0 < n)%nat).
  { unfold n. rewrite np_sort_length. destruct vals; [contradiction | cbn; lia]. }
  assert (Hhalf : (n / 2 < n)%nat) by (apply Nat.div_lt; lia).
  pose proof (np_sort_nth_range vals lo hi (n / 2) Hall Hhalf) as H2.
  destruct (Nat.even n); [| exact H2].
  assert (Hprev : (n / 2 - 1 < n)%nat) by lia.
  pose proof (np_sort_nth_range vals lo hi (n / 2 - 1) Hall Hprev) as H1.
  set (a := nth (n / 2 - 1) (np_sort vals) 0) in *.
  set (b := nth (n / 2) (np_sort vals) 0) in *.
  split.
  - apply Qle_shift_div_l; [reflexivity | Lqa.lra].
  - apply Qle_shift_div_r; [reflexivity | Lqa.lra].
Qed.

Lemma np_percentile_range (vals : list Q) (q lo hi : Q) :
  vals <> [] -> 0 <= q <= 100 -> (forall x, In x vals -> lo <= x <= hi) ->
  lo <= np_percentile vals q <= hi.
Proof.
  intros Hne Hq Hall. unfold np_percentile.
  set (n := List.length (np_sort vals)).
  assert (Hn : (0 < n)%nat).
  { unfold n. rewrite np_sort_length. destruct vals; [contradiction | cbn; lia]. }
  set (top := inject_Z (Z.of_nat (n - 1))).
  assert (Htop : 0 <= top).
  { unfold top. change 0 with (inject_Z 0). rewrite <- Zle_Qle. lia. }
  assert (Hfrac : 0 <= q / 100 <= 1).
  { split.
    - apply Qle_shift_div_l; [reflexivity | Lqa.lra].
    - apply Qle_shift_div_r; [reflexivity | Lqa.lra]. }
  set (vi := q / 100 * top).
  assert (Hvi : 0 <= vi <= top) by (unfold vi; Lqa.nra).
  assert (Hf0 : (0 <= Qfloor vi)%Z).
  { change 0%Z with (Qfloor (inject_Z 0)). apply Qfloor_resp_le. apply Hvi. }
  assert (Hf1 : (Qfloor vi <= Z.of_nat (n - 1))%Z).
  { rewrite <- (Qfloor_Z (Z.of_nat (n - 1))). apply Qfloor_resp_le. apply Hvi. }
  assert (Hprev : (Z.to_nat (Qfloor vi) < n)%nat) by lia.
  assert (Hnext : (Nat.min (Z.to_nat (Qfloor vi) + 1) (n - 1) < n)%nat) by lia.
  pose proof (np_sort_nth_range vals lo hi _ Hall Hprev) as Ha.
  pose proof (np_sort_nth_range vals lo hi _ Hall Hnext) as Hb.
  set (a := nth (Z.to_nat (Qfloor vi)) (np_sort vals) 0) in *.
  set (b := nth (Nat.min (Z.to_nat (Qfloor vi) + 1) (n - 1)) (np_sort vals) 0) in *.
  assert (Hg : 0 <= vi - inject_Z (Qfloor vi) <= 1).
  { pose proof (Qfloor_le vi) as Hle. pose proof (Qlt_floor vi) as Hlt.
    rewrite inject_Z_plus in Hlt. change (inject_Z 1) with 1 in Hlt.
    split; Lqa.lra. }
  set (g := vi - inject_Z (Qfloor vi)) in *.
  split; Lqa.nra.
Qed.

(** Every statistic of the summary lies between the smallest and the
    largest stored value of the key, and the count is the number of
    stored values: nothing is extrapolated, dropped or weighted. *)
Theorem summarize_k_within_range
    (store : gmap string (list Q)) (tracer profile : string) (vals : list Q) (lo hi : Q) :
  store !! store_key tracer profile = Some vals -> vals <> [] ->
  (forall x, In x vals -> lo <= x <= hi) ->
  exists med p25 p75,
    summarize_k store tracer profile = Some (med, p25, p75, List.length vals) /\
    lo <= med <= hi /\ lo <= p25 <= hi /\ lo <= p75 <= hi.
Proof.
  intros Hkey Hne Hall.
  rewrite (summarize_k_value _ _ _ _ Hkey Hne). do 3 eexists. split; [reflexivity |].
  unfold float. rewrite !Qred_correct.
  split; [apply np_median_range; assumption |].
  split; apply np_percentile_range; try assumption; Lqa.lra.
Qed.

Lemma summarize_k_within_range_witness :
  exists med p25 p75,
    summarize_k {["FDG_EARL"%string := [3; 1; 2]]} "FDG" "EARL" = Some (med, p25, p75, 3%nat) /\
    1 <= med <= 3 /\ 1 <= p25 <= 3 /\ 1 <= p75 <= 3.
Proof.
  apply (summarize_k_within_range _ "FDG" "EARL" [3; 1; 2] 1 3).
  - apply lookup_singleton_eq.
  - discriminate.
  - intros x [<- | [<- | [<- | []]]]; split; discriminate.
Defined.

End SummaryRange.
